(** * Rolling-window metrics of [crypto_data.py]

    A shallow embedding of [fetch_crypto_data] and [calculate_metrics]
    together with the part of pandas they call: float64 columns with NaN,
    [shift], [rolling(...).max/min/apply], [astype(int)], column lookup and
    assignment on a frame held in a store, [copy], [dropna] and [tail];
    and of the columns that [train_model] of [ml_model.py] reads.

    Prices are real numbers: a finite float is a rational [Fin q], without
    rounding, overflow or a signed zero; the non-finite floats are the
    constructors [PInf], [NInf] and [NaN]. *)

From Stdlib Require Import Ascii String DecimalString DecimalPos DecimalZ.
From Stdlib Require Import List ZArith QArith Lia Lqa Bool.
Import ListNotations.

Close Scope Q_scope.
Local Open Scope nat_scope.
Local Open Scope list_scope.

(* ------------------------------------------------------------------ *)
(** ** Exceptions and results *)

Inductive exn : Type :=
| KeyError (key : string)
| ValueError (msg : string)
| TypeError (msg : string).

Inductive result (A : Type) : Type :=
| Ok (a : A)
| Raise (e : exn).
Arguments Ok {A} a.
Arguments Raise {A} e.

Definition rbind {A B} (r : result A) (k : A -> result B) : result B :=
  match r with
  | Ok a => k a
  | Raise e => Raise e
  end.

(* ------------------------------------------------------------------ *)
(** ** float64 cells *)

Inductive float : Type :=
| Fin (q : Q)
| PInf
| NInf
| NaN.

Definition isnan (x : float) : bool :=
  match x with NaN => true | _ => false end.

Definition isfinite (x : float) : bool :=
  match x with Fin _ => true | _ => false end.

(** IEEE subtraction on the extended line. *)
Definition fsub (a b : float) : float :=
  match a, b with
  | NaN, _ | _, NaN => NaN
  | Fin x, Fin y => Fin (x - y)
  | PInf, PInf | NInf, NInf => NaN
  | PInf, _ | _, NInf => PInf
  | NInf, _ | _, PInf => NInf
  end.

(** IEEE division: a finite non-zero number over zero is an infinity,
    zero over zero is NaN; nothing is raised (numpy arrays, not Python
    scalars). *)
Definition fdiv (a b : float) : float :=
  match a, b with
  | NaN, _ | _, NaN => NaN
  | Fin x, Fin y =>
      if Qeq_bool y 0 then
        match (x ?= 0)%Q with
        | Gt => PInf
        | Lt => NInf
        | Eq => NaN
        end
      else Fin (x / y)
  | Fin _, _ => Fin 0
  | PInf, Fin y => match (y ?= 0)%Q with Lt => NInf | _ => PInf end
  | NInf, Fin y => match (y ?= 0)%Q with Lt => PInf | _ => NInf end
  | _, _ => NaN
  end.

Definition fmul (a b : float) : float :=
  match a, b with
  | NaN, _ | _, NaN => NaN
  | Fin x, Fin y => Fin (x * y)
  | Fin x, PInf | PInf, Fin x =>
      match (x ?= 0)%Q with Gt => PInf | Lt => NInf | Eq => NaN end
  | Fin x, NInf | NInf, Fin x =>
      match (x ?= 0)%Q with Gt => NInf | Lt => PInf | Eq => NaN end
  | PInf, PInf | NInf, NInf => PInf
  | PInf, NInf | NInf, PInf => NInf
  end.

(* ------------------------------------------------------------------ *)
(** ** Series: one float64 column *)

Definition Series := list float.

Fixpoint map2 {A B C} (f : A -> B -> C) (l1 : list A) (l2 : list B) : list C :=
  match l1, l2 with
  | a :: t1, b :: t2 => f a b :: map2 f t1 t2
  | _, _ => []
  end.

Definition Series_sub (a b : Series) : Series := map2 fsub a b.
Definition Series_div (a b : Series) : Series := map2 fdiv a b.
Definition Series_mul_scalar (a : Series) (k : Q) : Series :=
  map (fun x => fmul x (Fin k)) a.

(** [s.shift(periods)]: row [i] receives [s[i - periods]], NaN where that
    row does not exist. *)
Definition shift (periods : Z) (s : Series) : Series :=
  if (0 <=? periods)%Z
  then firstn (length s) (repeat NaN (Z.to_nat periods) ++ s)
  else skipn (Z.to_nat (- periods)) s
         ++ repeat NaN (Nat.min (Z.to_nat (- periods)) (length s)).

(** The fixed window of size [w] that ends at row [i]:
    rows [max(0, i + 1 - w) .. i]. *)
Definition window_at {A} (w i : nat) (s : list A) : list A :=
  skipn (i + 1 - w) (firstn (i + 1) s).

(** Rolling aggregations see infinities as NaN ([_prep_values]). *)
Definition prep (x : float) : float :=
  match x with Fin q => Fin q | _ => NaN end.

(** The observations of a window: its finite values, in order. *)
Fixpoint observations (l : list float) : list Q :=
  match l with
  | [] => []
  | Fin q :: t => q :: observations t
  | _ :: t => observations t
  end.

Definition qmax (a b : Q) : Q := if Qle_bool a b then b else a.
Definition qmin (a b : Q) : Q := if Qle_bool b a then b else a.

Definition agg_max (obs : list Q) : float :=
  match obs with
  | [] => NaN
  | x :: t => Fin (fold_left qmax t x)
  end.

Definition agg_min (obs : list Q) : float :=
  match obs with
  | [] => NaN
  | x :: t => Fin (fold_left qmin t x)
  end.

(** [s.rolling(window, min_periods)] *)
Record Rolling : Type := mkRolling {
  obj : Series;
  window : nat;
  min_periods : nat
}.

Definition rolling (s : Series) (window : Z) (min_periods : option Z)
  : result Rolling :=
  if (window <? 0)%Z then Raise (ValueError "window must be an integer 0 or greater"%string)
  else
    match min_periods with
    | None => Ok (mkRolling s (Z.to_nat window) (Z.to_nat window))
    | Some mp =>
        if (mp <? 0)%Z then Raise (ValueError "min_periods must be >= 0"%string)
        else if (window <? mp)%Z then Raise (ValueError "min_periods must be <= window"%string)
        else Ok (mkRolling s (Z.to_nat window) (Z.to_nat mp))
    end.

Definition Rolling_windows (r : Rolling) : list (list float) :=
  map (fun i => window_at (window r) i (map prep (obj r)))
      (seq 0 (length (obj r))).

Definition Rolling_reduce (f : list Q -> float) (r : Rolling) : Series :=
  map (fun x => let obs := observations x in
                if length obs <? min_periods r then NaN else f obs)
      (Rolling_windows r).

Definition Rolling_max : Rolling -> Series := Rolling_reduce agg_max.
Definition Rolling_min : Rolling -> Series := Rolling_reduce agg_min.

(** [rolling(...).apply(func)] with [raw=False]: [func] receives the whole
    window (NaN included) when it holds at least [min_periods] observations. *)
Definition Rolling_apply (func : list float -> float) (r : Rolling) : Series :=
  map (fun x => if length (observations x) <? min_periods r then NaN else func x)
      (Rolling_windows r).

(** [Series.argmax()] / [argmin()]: the position of the first occurrence of
    the largest (smallest) value, NaN skipped; paired with that value. *)
Fixpoint argmax_val (l : list float) : option (nat * Q) :=
  match l with
  | [] => None
  | Fin q :: t =>
      match argmax_val t with
      | Some (j, m) => if Qle_bool m q then Some (0, q) else Some (S j, m)
      | None => Some (0, q)
      end
  | _ :: t =>
      match argmax_val t with
      | Some (j, m) => Some (S j, m)
      | None => None
      end
  end.

Fixpoint argmin_val (l : list float) : option (nat * Q) :=
  match l with
  | [] => None
  | Fin q :: t =>
      match argmin_val t with
      | Some (j, m) => if Qle_bool q m then Some (0, q) else Some (S j, m)
      | None => Some (0, q)
      end
  | _ :: t =>
      match argmin_val t with
      | Some (j, m) => Some (S j, m)
      | None => None
      end
  end.

Definition argmax (l : list float) : option nat := option_map fst (argmax_val l).
Definition argmin (l : list float) : option nat := option_map fst (argmin_val l).

Definition of_int (z : Z) : float := Fin (inject_Z z).

(** [lambda x: len(x) - 1 - x[::-1].argmax()] *)
Definition lambda_high (x : list float) : float :=
  match argmax (rev x) with
  | Some p => of_int (Z.of_nat (length x) - 1 - Z.of_nat p)
  | None => NaN
  end.

(** [lambda x: len(x) - 1 - x[::-1].argmin()] *)
Definition lambda_low (x : list float) : float :=
  match argmin (rev x) with
  | Some p => of_int (Z.of_nat (length x) - 1 - Z.of_nat p)
  | None => NaN
  end.

(** [Series.astype(int)]: truncation; a NaN or an infinity raises. *)
Fixpoint astype_int (s : Series) : result (list Z) :=
  match s with
  | [] => Ok []
  | Fin q :: t => rbind (astype_int t) (fun zs => Ok (Z.quot (Qnum q) (Zpos (Qden q)) :: zs))
  | _ :: _ => Raise (ValueError "Cannot convert non-finite values (NA or inf) to integer"%string)
  end.

(* ------------------------------------------------------------------ *)
(** ** Columns and frames *)

Inductive Column : Type :=
| FloatCol (s : Series)
| IntCol (s : list Z)
| DateCol (s : list Z).

(** A frame is its columns, in insertion order. [pd.DataFrame()] is []. *)
Definition DataFrame := list (string * Column).

Fixpoint df_get (name : string) (df : DataFrame) : option Column :=
  match df with
  | [] => None
  | (k, c) :: t => if String.eqb k name then Some c else df_get name t
  end.

(** [df[name] = col]: an existing column is replaced in place, a new one is
    appended. *)
Fixpoint df_set (name : string) (col : Column) (df : DataFrame) : DataFrame :=
  match df with
  | [] => [(name, col)]
  | (k, c) :: t =>
      if String.eqb k name then (k, col) :: t else (k, c) :: df_set name col t
  end.

Definition col_len (c : Column) : nat :=
  match c with
  | FloatCol s => length s
  | IntCol s => length s
  | DateCol s => length s
  end.

Definition nrows (df : DataFrame) : nat :=
  match df with
  | [] => 0
  | (_, c) :: _ => col_len c
  end.

(** Numeric view of a column, as arithmetic and rolling take it. *)
Definition to_float (c : Column) : result Series :=
  match c with
  | FloatCol s => Ok s
  | IntCol s => Ok (map of_int s)
  | DateCol _ => Raise (TypeError "datetime64 column in a numeric operation"%string)
  end.

(* ------------------------------------------------------------------ *)
(** ** The store of frames, and the monad of a Python function body

    A Python variable holds a reference. [heap] maps references to frames;
    a computation threads the heap and may raise. *)

Definition ref := nat.
Definition heap := list DataFrame.

Definition M (A : Type) : Type := heap -> result A * heap.

Definition ret {A} (a : A) : M A := fun h => (Ok a, h).

Definition bind {A B} (m : M A) (k : A -> M B) : M B :=
  fun h =>
    match m h with
    | (Ok a, h') => k a h'
    | (Raise e, h') => (Raise e, h')
    end.

Definition lift {A} (r : result A) : M A := fun h => (r, h).

Declare Scope py_scope.
Delimit Scope py_scope with py.
Notation "x <- c ;; k" := (bind c (fun x => k))
  (at level 61, c at next level, right associativity) : py_scope.
Notation "c ;; k" := (bind c (fun _ => k))
  (at level 61, right associativity) : py_scope.

Fixpoint update {A} (l : list A) (i : nat) (a : A) : list A :=
  match l, i with
  | [], _ => []
  | _ :: t, 0 => a :: t
  | x :: t, S j => x :: update t j a
  end.

(** [data.copy()]: a new frame object with the same columns. *)
Definition DataFrame_copy (r : ref) : M ref :=
  fun h =>
    match nth_error h r with
    | Some df => (Ok (length h), h ++ [df])
    | None => (Raise (TypeError "dangling reference"%string), h)
    end.

(** [data[name]] *)
Definition getitem (r : ref) (name : string) : M Column :=
  fun h =>
    match nth_error h r with
    | Some df =>
        match df_get name df with
        | Some c => (Ok c, h)
        | None => (Raise (KeyError name), h)
        end
    | None => (Raise (TypeError "dangling reference"%string), h)
    end.

(** [data[name] = col]: mutates the frame object in place. *)
Definition setitem (r : ref) (name : string) (col : Column) : M unit :=
  fun h =>
    match nth_error h r with
    | Some df => (Ok tt, update h r (df_set name col df))
    | None => (Raise (TypeError "dangling reference"%string), h)
    end.

(** [data[name]] as a float64 Series. *)
Definition getseries (r : ref) (name : string) : M Series :=
  (c <- getitem r name ;; lift (to_float c))%py.

(* ------------------------------------------------------------------ *)
(** ** [calculate_metrics] *)

(** [str(n)] for a Python int. *)
Definition str (z : Z) : string := NilZero.string_of_int (Z.to_int z).

(** [f'{pre}{v}_Days'] *)
Definition fname (pre : string) (v : Z) : string :=
  String.append pre (String.append (str v) "_Days").

Definition High_Last (v : Z) := fname "High_Last_" v.
Definition Low_Last (v : Z) := fname "Low_Last_" v.
Definition Days_Since_High_Last (v : Z) := fname "Days_Since_High_Last_" v.
Definition Days_Since_Low_Last (v : Z) := fname "Days_Since_Low_Last_" v.
Definition High_Next (v : Z) := fname "High_Next_" v.
Definition Low_Next (v : Z) := fname "Low_Next_" v.
Definition Diff_From_High_Last (v : Z) := fname "%_Diff_From_High_Last_" v.
Definition Diff_From_Low_Last (v : Z) := fname "%_Diff_From_Low_Last_" v.
Definition Diff_From_High_Next (v : Z) := fname "%_Diff_From_High_Next_" v.
Definition Diff_From_Low_Next (v : Z) := fname "%_Diff_From_Low_Next_" v.

Definition calculate_metrics (data : ref) (variable1 variable2 : Z) : M ref :=
  (data <- DataFrame_copy data ;;
   (* Historical High and Low Prices *)
   high <- getseries data "High" ;;
   r <- lift (rolling high variable1 (Some 1%Z)) ;;
   setitem data (High_Last variable1) (FloatCol (Rolling_max r)) ;;
   low <- getseries data "Low" ;;
   r <- lift (rolling low variable1 (Some 1%Z)) ;;
   setitem data (Low_Last variable1) (FloatCol (Rolling_min r)) ;;
   (* Days Since High/Low *)
   high <- getseries data "High" ;;
   r <- lift (rolling high variable1 (Some 1%Z)) ;;
   d <- lift (astype_int (Rolling_apply lambda_high r)) ;;
   setitem data (Days_Since_High_Last variable1) (IntCol d) ;;
   low <- getseries data "Low" ;;
   r <- lift (rolling low variable1 (Some 1%Z)) ;;
   d <- lift (astype_int (Rolling_apply lambda_low r)) ;;
   setitem data (Days_Since_Low_Last variable1) (IntCol d) ;;
   (* Future High and Low Prices *)
   high <- getseries data "High" ;;
   r <- lift (rolling (shift (- variable2) high) variable2 (Some 1%Z)) ;;
   setitem data (High_Next variable2) (FloatCol (Rolling_max r)) ;;
   low <- getseries data "Low" ;;
   r <- lift (rolling (shift (- variable2) low) variable2 (Some 1%Z)) ;;
   setitem data (Low_Next variable2) (FloatCol (Rolling_min r)) ;;
   (* Percentage Difference Metrics *)
   close <- getseries data "Close" ;;
   x <- getseries data (High_Last variable1) ;;
   x' <- getseries data (High_Last variable1) ;;
   setitem data (Diff_From_High_Last variable1)
     (FloatCol (Series_mul_scalar (Series_div (Series_sub close x) x') (100 # 1))) ;;
   close <- getseries data "Close" ;;
   x <- getseries data (Low_Last variable1) ;;
   x' <- getseries data (Low_Last variable1) ;;
   setitem data (Diff_From_Low_Last variable1)
     (FloatCol (Series_mul_scalar (Series_div (Series_sub close x) x') (100 # 1))) ;;
   close <- getseries data "Close" ;;
   x <- getseries data (High_Next variable2) ;;
   x' <- getseries data (High_Next variable2) ;;
   setitem data (Diff_From_High_Next variable2)
     (FloatCol (Series_mul_scalar (Series_div (Series_sub close x) x') (100 # 1))) ;;
   close <- getseries data "Close" ;;
   x <- getseries data (Low_Next variable2) ;;
   x' <- getseries data (Low_Next variable2) ;;
   setitem data (Diff_From_Low_Next variable2)
     (FloatCol (Series_mul_scalar (Series_div (Series_sub close x) x') (100 # 1))) ;;
   ret data)%py.

(* ------------------------------------------------------------------ *)
(** ** Price rows and the frame that holds them *)

Record PriceRow : Type := mkPriceRow {
  Date : Z;      (* timestamp, milliseconds *)
  Open : Q;
  High : Q;
  Low : Q;
  Close : Q
}.

Definition fin_col (f : PriceRow -> Q) (rows : list PriceRow) : Series :=
  map (fun r => Fin (f r)) rows.

Definition from_rows (rows : list PriceRow) : DataFrame :=
  [ ("Date"%string,  DateCol (map Date rows));
    ("Open"%string,  FloatCol (fin_col Open rows));
    ("High"%string,  FloatCol (fin_col High rows));
    ("Low"%string,   FloatCol (fin_col Low rows));
    ("Close"%string, FloatCol (fin_col Close rows)) ].

(** The caller of [__main__]: the frame of [rows] is the only object of the
    store, [calculate_metrics] is called on it, and the returned reference
    is read. The final store comes back too. *)
Definition metrics_of (rows : list PriceRow) (variable1 variable2 : Z)
  : result DataFrame * heap :=
  match calculate_metrics 0 variable1 variable2 [from_rows rows] with
  | (Ok r, h) =>
      match nth_error h r with
      | Some df => (Ok df, h)
      | None => (Raise (TypeError "dangling reference"%string), h)
      end
  | (Raise e, h) => (Raise e, h)
  end.

(** Cell [i] of a float64 / int64 column of a frame. *)
Definition float_at (df : DataFrame) (name : string) (i : nat) : option float :=
  match df_get name df with
  | Some (FloatCol s) => nth_error s i
  | _ => None
  end.

Definition int_at (df : DataFrame) (name : string) (i : nat) : option Z :=
  match df_get name df with
  | Some (IntCol s) => nth_error s i
  | _ => None
  end.

Definition date_at (df : DataFrame) (name : string) (i : nat) : option Z :=
  match df_get name df with
  | Some (DateCol s) => nth_error s i
  | _ => None
  end.

(* ------------------------------------------------------------------ *)
(** ** [fetch_crypto_data] *)

(** Row selection on a column. *)
Fixpoint take {A} (mask : list bool) (l : list A) : list A :=
  match mask, l with
  | b :: m, x :: t => if b then x :: take m t else take m t
  | _, _ => []
  end.

Definition Column_map_rows (f : forall A, list A -> list A) (c : Column) : Column :=
  match c with
  | FloatCol s => FloatCol (f _ s)
  | IntCol s => IntCol (f _ s)
  | DateCol s => DateCol (f _ s)
  end.

Definition notna (c : Column) : list bool :=
  match c with
  | FloatCol s => map (fun x => negb (isnan x)) s
  | IntCol s => map (fun _ => true) s
  | DateCol s => map (fun _ => true) s
  end.

(** [df.dropna()]: keeps the rows without a NaN in any column. *)
Definition dropna (df : DataFrame) : DataFrame :=
  let mask :=
    fold_left (fun m kc => map2 andb m (notna (snd kc))) df
              (repeat true (nrows df)) in
  map (fun kc => (fst kc, Column_map_rows (fun A => take mask) (snd kc))) df.

(** [df.tail(n)]: the last [n] rows. *)
Definition tail (n : nat) (df : DataFrame) : DataFrame :=
  map (fun kc =>
         (fst kc, Column_map_rows (fun A l => skipn (length l - n) l) (snd kc)))
      df.

(** [df[[names]]] *)
Fixpoint select (names : list string) (df : DataFrame) : result DataFrame :=
  match names with
  | [] => Ok []
  | k :: t =>
      match df_get k df with
      | Some c => rbind (select t df) (fun d => Ok ((k, c) :: d))
      | None => Raise (KeyError k)
      end
  end.

Definition get_col (name : string) (df : DataFrame) : result Column :=
  match df_get name df with
  | Some c => Ok c
  | None => Raise (KeyError name)
  end.

Definition get_float (name : string) (df : DataFrame) : result Series :=
  rbind (get_col name df) to_float.

(** [pd.to_datetime(col, unit='ms')] on a column of integer timestamps. *)
Definition to_datetime (c : Column) : result Column :=
  match c with
  | IntCol s => Ok (DateCol s)
  | DateCol s => Ok (DateCol s)
  | FloatCol _ => Raise (TypeError "float timestamps"%string)
  end.

(** [str.lower()] on ASCII letters. *)
Definition lower_ascii (c : ascii) : ascii :=
  let n := nat_of_ascii c in
  if andb (65 <=? n) (n <=? 90) then ascii_of_nat (n + 32) else c.

Fixpoint lower (s : string) : string :=
  match s with
  | EmptyString => EmptyString
  | String c t => String (lower_ascii c) (lower t)
  end.

(** [s.split('/')] *)
Fixpoint split_slash (s : string) : list string :=
  match s with
  | EmptyString => [EmptyString]
  | String c t =>
      if Ascii.eqb c "/" then EmptyString :: split_slash t
      else
        match split_slash t with
        | w :: ws => String c w :: ws
        | [] => [String c EmptyString]
        end
  end.

Section Fetch.

(** The outside world of one call: the parser of a ['%Y-%m-%d'] date into
    a Unix timestamp ([None]: the string does not parse), the clock, and
    the HTTP endpoint ([None]: a connection or HTTP error, a body that is
    not JSON or has no ["prices"]); the prices are [timestamp_ms, price]
    pairs. *)
Variable strptime_timestamp : string -> option Z.
Variable now_timestamp : Z.
Variable market_chart_range :
  string -> string -> Z -> Z -> option (list (Z * Q)).

(** Lines 44-50: the frame built from the ["prices"] array. *)
Definition prepare_frame (prices : list (Z * Q)) : result DataFrame :=
  let df : DataFrame :=
    [ ("Date"%string, IntCol (map fst prices));
      ("Close"%string, FloatCol (map (fun p => Fin (snd p)) prices)) ] in
  rbind (get_col "Date" df) (fun date =>
  rbind (to_datetime date) (fun date =>
  let df := df_set "Date" date df in
  rbind (get_float "Close" df) (fun close =>
  let df := df_set "Open" (FloatCol (shift 1 close)) df in
  rbind (get_float "Close" df) (fun close =>
  rbind (rolling close 2 None) (fun r =>
  let df := df_set "High" (FloatCol (Rolling_max r)) df in
  rbind (get_float "Close" df) (fun close =>
  rbind (rolling close 2 None) (fun r =>
  let df := df_set "Low" (FloatCol (Rolling_min r)) df in
  let df := tail 14 (dropna df) in
  select ["Date"; "Open"; "High"; "Low"; "Close"]%string df))))))).

Definition fetch_crypto_data (crypto_pair start_date : string) : DataFrame :=
  match split_slash (lower crypto_pair) with
  | [crypto_id; vs_currency] =>
      match strptime_timestamp start_date with
      | Some start_date_ts =>
          let to_date_ts := now_timestamp in
          let max_days := (14 * 86400)%Z in
          let start_date_ts :=
            if (to_date_ts - start_date_ts >? max_days)%Z
            then (to_date_ts - max_days)%Z else start_date_ts in
          match market_chart_range crypto_id vs_currency
                                   start_date_ts to_date_ts with
          | Some prices =>
              match prepare_frame prices with
              | Ok df => df
              | Raise _ => []          (* except Exception *)
              end
          | None => []                 (* except HTTPError / Exception *)
          end
      | None => []                     (* strptime raised ValueError *)
      end
  | _ => []                            (* unpacking raised ValueError *)
  end.

End Fetch.

(** [df.empty]: no column, or no row. *)
Definition empty (df : DataFrame) : bool :=
  match df with
  | [] => true
  | _ => nrows df =? 0
  end.

(* ------------------------------------------------------------------ *)
(** ** [train_model], up to the call of scikit-learn *)

(** [data[names]] with a list of names: a new frame of those columns. *)
Definition getitems (r : ref) (names : list string) : M DataFrame :=
  fun h =>
    match nth_error h r with
    | Some df => (select names df, h)
    | None => (Raise (TypeError "dangling reference"%string), h)
    end.

Definition features (variable1 : Z) : list string :=
  [ Days_Since_High_Last variable1;
    Diff_From_High_Last variable1;
    Days_Since_Low_Last variable1;
    Diff_From_Low_Last variable1 ].

(** Lines 19-27 of [train_model]: the feature frame [X] and the two target
    columns. The split, the fit and the scores that follow are
    scikit-learn's and are not modelled. *)
Definition train_model_columns (data : ref) (variable1 variable2 : Z)
  : M (DataFrame * Column * Column) :=
  (X <- getitems data (features variable1) ;;
   y_high <- getitem data (Diff_From_High_Next variable2) ;;
   y_low <- getitem data (Diff_From_Low_Next variable2) ;;
   ret (X, y_high, y_low))%py.

(* ================================================================== *)
(** * Vocabulary of the statements *)

(* ------------------------------------------------------------------ *)
(** ** The columns that [calculate_metrics] computes from price rows *)

Definition high_last (rows : list PriceRow) (variable1 : Z) : Series :=
  Rolling_max (mkRolling (fin_col High rows) (Z.to_nat variable1) 1).

Definition low_last (rows : list PriceRow) (variable1 : Z) : Series :=
  Rolling_min (mkRolling (fin_col Low rows) (Z.to_nat variable1) 1).

Definition since_high (rows : list PriceRow) (variable1 : Z) : Series :=
  Rolling_apply lambda_high
                (mkRolling (fin_col High rows) (Z.to_nat variable1) 1).

Definition since_low (rows : list PriceRow) (variable1 : Z) : Series :=
  Rolling_apply lambda_low
                (mkRolling (fin_col Low rows) (Z.to_nat variable1) 1).

Definition high_next (rows : list PriceRow) (variable2 : Z) : Series :=
  Rolling_max (mkRolling (shift (- variable2) (fin_col High rows))
                         (Z.to_nat variable2) 1).

Definition low_next (rows : list PriceRow) (variable2 : Z) : Series :=
  Rolling_min (mkRolling (shift (- variable2) (fin_col Low rows))
                         (Z.to_nat variable2) 1).

Definition pct (rows : list PriceRow) (x : Series) : Series :=
  Series_mul_scalar (Series_div (Series_sub (fin_col Close rows) x) x) (100 # 1).

(** The frame behind the returned reference: the five input columns and
    the ten derived ones, [dh] and [dl] being the two integer columns. *)
Definition metrics_frame (rows : list PriceRow) (variable1 variable2 : Z)
           (dh dl : list Z) : DataFrame :=
  from_rows rows ++
  [ (High_Last variable1, FloatCol (high_last rows variable1));
    (Low_Last variable1, FloatCol (low_last rows variable1));
    (Days_Since_High_Last variable1, IntCol dh);
    (Days_Since_Low_Last variable1, IntCol dl);
    (High_Next variable2, FloatCol (high_next rows variable2));
    (Low_Next variable2, FloatCol (low_next rows variable2));
    (Diff_From_High_Last variable1, FloatCol (pct rows (high_last rows variable1)));
    (Diff_From_Low_Last variable1, FloatCol (pct rows (low_last rows variable1)));
    (Diff_From_High_Next variable2, FloatCol (pct rows (high_next rows variable2)));
    (Diff_From_Low_Next variable2, FloatCol (pct rows (low_next rows variable2))) ].

(** A float cell that holds an integer, as [astype(int)] needs it. *)
Definition integral (x : float) : Prop := exists z, x = of_int z.

(** The four extremum columns, each with its percentage column. *)
Definition extremum_fields (W1 W2 : Z) : list (string * string) :=
  [ (High_Last W1, Diff_From_High_Last W1);
    (Low_Last W1, Diff_From_Low_Last W1);
    (High_Next W2, Diff_From_High_Next W2);
    (Low_Next W2, Diff_From_Low_Next W2) ].

Definition base_names : list string :=
  [ "Date"; "Open"; "High"; "Low"; "Close" ]%string.

Definition derived_names (W1 W2 : Z) : list string :=
  [ High_Last W1; Low_Last W1;
    Days_Since_High_Last W1; Days_Since_Low_Last W1;
    High_Next W2; Low_Next W2;
    Diff_From_High_Last W1; Diff_From_Low_Last W1;
    Diff_From_High_Next W2; Diff_From_Low_Next W2 ].

(* ------------------------------------------------------------------ *)
(** ** Extrema over windows and ranges of rows *)

Definition is_max_of (m : Q) (l : list Q) : Prop :=
  In m l /\ forall y, In y l -> (y <= m)%Q.

Definition is_min_of (m : Q) (l : list Q) : Prop :=
  In m l /\ forall y, In y l -> (m <= y)%Q.

(** Extrema over a range of rows, by index. *)
Definition max_over (f : PriceRow -> Q) (rows : list PriceRow)
           (a b : nat) (m : Q) : Prop :=
  (exists j r, a <= j <= b /\ nth_error rows j = Some r /\ f r = m) /\
  (forall j r, a <= j <= b -> nth_error rows j = Some r -> (f r <= m)%Q).

Definition min_over (f : PriceRow -> Q) (rows : list PriceRow)
           (a b : nat) (m : Q) : Prop :=
  (exists j r, a <= j <= b /\ nth_error rows j = Some r /\ f r = m) /\
  (forall j r, a <= j <= b -> nth_error rows j = Some r -> (m <= f r)%Q).

(** [max(0, i - W1 + 1)], the first row of the trailing window of row [i]. *)
Definition trailing_start (i : nat) (w : Z) : nat :=
  Z.to_nat (Z.max 0 (Z.of_nat i - w + 1)).

(** Row [p] holds the most recent maximum (minimum) of [f] over rows
    [a .. b]: no row of the range is larger, every later one is strictly
    smaller. *)
Definition last_max_at (f : PriceRow -> Q) (rows : list PriceRow)
           (a b p : nat) : Prop :=
  a <= p <= b /\
  exists r, nth_error rows p = Some r /\
    (forall j r', a <= j <= b -> nth_error rows j = Some r' -> (f r' <= f r)%Q) /\
    (forall j r', p < j <= b -> nth_error rows j = Some r' -> (f r' < f r)%Q).

Definition last_min_at (f : PriceRow -> Q) (rows : list PriceRow)
           (a b p : nat) : Prop :=
  a <= p <= b /\
  exists r, nth_error rows p = Some r /\
    (forall j r', a <= j <= b -> nth_error rows j = Some r' -> (f r <= f r')%Q) /\
    (forall j r', p < j <= b -> nth_error rows j = Some r' -> (f r < f r')%Q).

(* ------------------------------------------------------------------ *)
(** ** Reasoning about the store *)

(** A Hoare triple of the monad: [m] keeps the store invariant [I] and a
    normal result satisfies [Q]. *)
Definition hoare (I : heap -> Prop) {A} (m : M A) (Q : A -> Prop) : Prop :=
  forall h, I h -> I (snd (m h)) /\ forall a, fst (m h) = Ok a -> Q a.

(** The store while the body runs on the copy at [length h0]: the objects
    of the caller are as they were, and the copy agrees with the frame it
    was copied from on every column that is not a derived one. *)
Definition body_inv (h0 : heap) (df0 : DataFrame) (W1 W2 : Z) (h : heap) : Prop :=
  length h = S (length h0) /\
  (forall r, r < length h0 -> nth_error h r = nth_error h0 r) /\
  exists out, nth_error h (length h0) = Some out /\
    forall k, ~ In k (derived_names W1 W2) -> df_get k out = df_get k df0.

(* ------------------------------------------------------------------ *)
(** ** The fetched table before and after [dropna().tail(14)] *)

(** The five columns before [dropna], in the order they are created. *)
Definition raw_frame (prices : list (Z * Q)) : DataFrame :=
  let close := map (fun p => Fin (snd p)) prices in
  [ ("Date"%string, DateCol (map fst prices));
    ("Close"%string, FloatCol close);
    ("Open"%string, FloatCol (shift 1 close));
    ("High"%string, FloatCol (Rolling_max (mkRolling close 2 2)));
    ("Low"%string, FloatCol (Rolling_min (mkRolling close 2 2))) ].

(** The rows [dropna] keeps. *)
Definition na_mask (prices : list (Z * Q)) : list bool :=
  fold_left (fun m kc => map2 andb m (notna (snd kc))) (raw_frame prices)
            (repeat true (nrows (raw_frame prices))).

(** The returned table, column by column: the raw column without its first
    row, cut to its last 14 rows. *)
Definition last_rows {A} (n : nat) (l : list A) : list A :=
  skipn (length l - n) l.

(* ------------------------------------------------------------------ *)
(** ** Inputs of the examples *)

(** Three rows used by the examples: Highs [5, 5, 3]. *)
Definition rows_553 : list PriceRow :=
  [ mkPriceRow 1 4 5 3 4; mkPriceRow 2 4 5 2 3; mkPriceRow 3 3 3 1 2 ].

(** Two rows of a rising series: the High of the current row is the
    maximum of every trailing window. *)
Definition rows_rising : list PriceRow :=
  [ mkPriceRow 1 1 2 1 2; mkPriceRow 2 2 3 2 3 ].

(** Three rows around a peak (closes 1, 9, 2, 1 as the fetcher lays them
    out): the High of row 1 exceeds the High of row 2. *)
Definition rows_peak : list PriceRow :=
  [ mkPriceRow 1 1 9 1 9; mkPriceRow 2 9 9 2 2; mkPriceRow 3 2 2 1 1 ].

(** One row whose High and Low are 0 and whose Close is 2. *)
Definition rows_zero : list PriceRow := [ mkPriceRow 1 0 0 0 2 ].

(** A world for the examples: every date parses, the endpoint answers with
    the closes 1, 9, 2, 1. *)
Definition closes_1921 : list (Z * Q) :=
  [ (1000%Z, 1%Q); (2000%Z, 9%Q); (3000%Z, 2%Q); (4000%Z, 1%Q) ].

Definition endpoint_1921 (crypto_id vs_currency : string) (from_ts to_ts : Z)
  : option (list (Z * Q)) := Some closes_1921.

Definition epoch (date : string) : option Z := Some 0%Z.

Definition fetch_1921 : DataFrame :=
  fetch_crypto_data epoch 1209600%Z endpoint_1921 "Bitcoin/USD" "2023-01-01".

(** An endpoint that answers only for ranges that start at or after the
    epoch. *)
Definition endpoint_recent (crypto_id vs_currency : string) (from_ts to_ts : Z)
  : option (list (Z * Q)) :=
  if (from_ts <? 0)%Z then None else Some closes_1921.

(* ------------------------------------------------------------------ *)
(** ** Sentences of the specification that the code does not satisfy *)

(** C1 as the specification states it: the cell is the backward distance
    [i - p] from row [i] to the row [p] of the most recent maximum of the
    trailing window. *)
Definition days_since_is_backward_distance
           (rows : list PriceRow) (W1 W2 : Z) : Prop :=
  forall out i p,
    fst (metrics_of rows W1 W2) = Ok out ->
    i < length rows ->
    last_max_at High rows (trailing_start i W1) i p ->
    int_at out (Days_Since_High_Last W1) i = Some (Z.of_nat (i - p)).

(** C2 as the specification states it: for a row [i] with a following row,
    the forward fields are the extrema over rows [i+1 .. min(i+W2, n-1)]. *)
Definition forward_extrema_from_next_row
           (rows : list PriceRow) (W1 W2 : Z) : Prop :=
  forall out i,
    fst (metrics_of rows W1 W2) = Ok out ->
    i + 1 < length rows ->
    exists hi lo,
      float_at out (High_Next W2) i = Some (Fin hi) /\
      float_at out (Low_Next W2) i = Some (Fin lo) /\
      max_over High rows (i + 1)
               (Nat.min (i + Z.to_nat W2) (length rows - 1)) hi /\
      min_over Low rows (i + 1)
               (Nat.min (i + Z.to_nat W2) (length rows - 1)) lo.

(** C3 as the specification states it: with [0 < W2 < n], the forward field
    of row [i] is undefined exactly when [i] is one of the final [W2] rows. *)
Definition undefined_on_final_W2_rows (rows : list PriceRow) (W1 W2 : Z) : Prop :=
  forall out i x,
    fst (metrics_of rows W1 W2) = Ok out ->
    i < length rows ->
    float_at out (High_Next W2) i = Some x ->
    (x = NaN <-> (Z.of_nat (length rows) - W2 <= Z.of_nat i)%Z).

(** C4 as the specification states it: where an extremum is exactly 0, the
    percentage computation fails: either the call raises, or the
    percentage cell of that row is left undefined. *)
Definition zero_extremum_fails (rows : list PriceRow) (W1 W2 : Z) : Prop :=
  forall out ext pc i E,
    fst (metrics_of rows W1 W2) = Ok out ->
    In (ext, pc) (extremum_fields W1 W2) ->
    float_at out ext i = Some (Fin E) ->
    (E == 0)%Q ->
    float_at out pc i = Some NaN.

(* ------------------------------------------------------------------ *)
(** ** The rows of a fetched table *)

Fixpoint count_slash (s : string) : nat :=
  match s with
  | EmptyString => 0
  | String c t => if Ascii.eqb c "/" then S (count_slash t) else count_slash t
  end.

(** The row that two consecutive raw prices give. *)
Definition price_row (p0 p1 : Z * Q) : PriceRow :=
  mkPriceRow (fst p1) (snd p0)
             (qmax (snd p0) (snd p1)) (qmin (snd p0) (snd p1)) (snd p1).

Definition price_rows (prices : list (Z * Q)) : list PriceRow :=
  last_rows 14 (map2 price_row prices (List.tl prices)).

(* ================================================================== *)
(** * Properties *)

(* ------------------------------------------------------------------ *)
(** ** The store *)

Lemma nth_error_last {A} (h : list A) (x : A) :
  nth_error (h ++ [x]) (length h) = Some x.
Proof.
  rewrite nth_error_app2 by lia. now rewrite Nat.sub_diag.
Qed.

Lemma update_last {A} (h : list A) (x y : A) :
  update (h ++ [x]) (length h) y = h ++ [y].
Proof.
  induction h as [|a h IH]; simpl; [reflexivity | now rewrite IH].
Qed.

Lemma length_update {A} (h : list A) (i : nat) (y : A) :
  length (update h i y) = length h.
Proof.
  revert i; induction h as [|a h IH]; intros [|i]; simpl; auto.
Qed.

Lemma nth_error_update_other {A} (h : list A) (i j : nat) (y : A) :
  i <> j -> nth_error (update h i y) j = nth_error h j.
Proof.
  revert i j; induction h as [|a h IH]; intros [|i] [|j] Hij; simpl;
    try reflexivity; try congruence.
  apply IH. congruence.
Qed.

Lemma nth_error_update_same {A} (h : list A) (i : nat) (y : A) :
  i < length h -> nth_error (update h i y) i = Some y.
Proof.
  revert i; induction h as [|a h IH]; intros [|i] Hi; simpl in *;
    try lia; auto.
  apply IH. lia.
Qed.

Section StoreSteps.

Variables (h : heap) (df : DataFrame).

Lemma getitem_last name :
  getitem (length h) name (h ++ [df]) =
    match df_get name df with
    | Some c => (Ok c, h ++ [df])
    | None => (Raise (KeyError name), h ++ [df])
    end.
Proof. unfold getitem. now rewrite nth_error_last. Qed.

Lemma getseries_last name s :
  df_get name df = Some (FloatCol s) ->
  getseries (length h) name (h ++ [df]) = (Ok s, h ++ [df]).
Proof.
  intros E. unfold getseries, bind. rewrite getitem_last, E. reflexivity.
Qed.

Lemma setitem_last name c :
  setitem (length h) name c (h ++ [df]) = (Ok tt, h ++ [df_set name c df]).
Proof. unfold setitem. now rewrite nth_error_last, update_last. Qed.

End StoreSteps.

Lemma rolling_min_periods_1 (s : Series) (w : Z) :
  (0 < w)%Z -> rolling s w (Some 1%Z) = Ok (mkRolling s (Z.to_nat w) 1).
Proof.
  intros Hw. unfold rolling.
  destruct (Z.ltb_spec w 0); [lia|].
  destruct (Z.ltb_spec 1 0); [lia|].
  destruct (Z.ltb_spec w 1); [lia|]. reflexivity.
Qed.

(* ------------------------------------------------------------------ *)
(** ** Windows of a list *)

Lemma window_at_map {A B} (f : A -> B) (w i : nat) (s : list A) :
  window_at w i (map f s) = map f (window_at w i s).
Proof.
  unfold window_at. now rewrite firstn_map, skipn_map.
Qed.

Lemma length_window_at {A} (w i : nat) (s : list A) :
  i < length s -> length (window_at w i s) = Nat.min (i + 1) w.
Proof.
  intros Hi. unfold window_at. rewrite length_skipn, length_firstn. lia.
Qed.

(** Position [k] of the window at [i] is row [i + 1 - w + k]. *)
Lemma nth_error_window_at {A} (w i k : nat) (s : list A) :
  nth_error (window_at w i s) k =
    if (i + 1 - w) + k <? i + 1 then nth_error s ((i + 1 - w) + k) else None.
Proof.
  unfold window_at. now rewrite nth_error_skipn, nth_error_firstn.
Qed.

Lemma In_window_at {A} (w i : nat) (s : list A) (x : A) :
  In x (window_at w i s) <->
  exists j, i + 1 - w <= j <= i /\ nth_error s j = Some x.
Proof.
  split.
  - intros H. apply In_nth_error in H as [k Hk].
    rewrite nth_error_window_at in Hk.
    destruct (Nat.ltb_spec (i + 1 - w + k) (i + 1)); [|discriminate].
    exists (i + 1 - w + k). split; [lia | exact Hk].
  - intros (j & Hj & E).
    apply nth_error_In with (n := j - (i + 1 - w)).
    rewrite nth_error_window_at.
    replace (i + 1 - w + (j - (i + 1 - w))) with j by lia.
    destruct (Nat.ltb_spec j (i + 1)); [exact E | lia].
Qed.

Lemma prep_Fin (qs : list Q) : map prep (map Fin qs) = map Fin qs.
Proof. now rewrite map_map. Qed.

Lemma observations_Fin (qs : list Q) : observations (map Fin qs) = qs.
Proof. induction qs as [|q qs IH]; simpl; congruence. Qed.

Lemma observations_app (l1 l2 : list float) :
  observations (l1 ++ l2) = observations l1 ++ observations l2.
Proof.
  induction l1 as [|[q| | |] l1 IH]; simpl; auto. now rewrite IH.
Qed.

Lemma observations_NaN (n : nat) : observations (repeat NaN n) = [].
Proof. induction n; simpl; auto. Qed.

(** Row [i] of a rolling reduction. *)
Lemma nth_error_Rolling_reduce (f : list Q -> float) (r : Rolling) (i : nat) :
  i < length (obj r) ->
  nth_error (Rolling_reduce f r) i =
    Some (let obs := observations (window_at (window r) i (map prep (obj r))) in
          if length obs <? min_periods r then NaN else f obs).
Proof.
  intros Hi. unfold Rolling_reduce, Rolling_windows.
  rewrite map_map, nth_error_map, nth_error_seq.
  destruct (Nat.ltb_spec i (length (obj r))); [reflexivity | lia].
Qed.

Lemma nth_error_Rolling_apply (f : list float -> float) (r : Rolling) (i : nat) :
  i < length (obj r) ->
  nth_error (Rolling_apply f r) i =
    Some (let x := window_at (window r) i (map prep (obj r)) in
          if length (observations x) <? min_periods r then NaN else f x).
Proof.
  intros Hi. unfold Rolling_apply, Rolling_windows.
  rewrite map_map, nth_error_map, nth_error_seq.
  destruct (Nat.ltb_spec i (length (obj r))); [reflexivity | lia].
Qed.

Lemma length_Rolling_reduce f r : length (Rolling_reduce f r) = length (obj r).
Proof.
  unfold Rolling_reduce, Rolling_windows. now rewrite !length_map, length_seq.
Qed.

Lemma length_Rolling_apply f r : length (Rolling_apply f r) = length (obj r).
Proof.
  unfold Rolling_apply, Rolling_windows. now rewrite !length_map, length_seq.
Qed.

(* ------------------------------------------------------------------ *)
(** ** [argmax] / [argmin] *)

Lemma argmax_val_Some (l : list float) :
  observations l <> [] -> exists p m, argmax_val l = Some (p, m).
Proof.
  induction l as [|[q| | |] l IH]; simpl; intros H; try congruence;
    try (destruct (IH H) as (p & m & E); rewrite E; eauto).
  destruct (argmax_val l) as [[j m]|]; [destruct (Qle_bool m q)|]; eauto.
Qed.

Lemma argmin_val_Some (l : list float) :
  observations l <> [] -> exists p m, argmin_val l = Some (p, m).
Proof.
  induction l as [|[q| | |] l IH]; simpl; intros H; try congruence;
    try (destruct (IH H) as (p & m & E); rewrite E; eauto).
  destruct (argmin_val l) as [[j m]|]; [destruct (Qle_bool q m)|]; eauto.
Qed.

Lemma observations_rev (l : list float) :
  observations (rev l) = rev (observations l).
Proof.
  induction l as [|[q| | |] l IH]; simpl; auto;
    rewrite observations_app, IH; simpl; auto using app_nil_r.
Qed.

Lemma observations_rev_nonempty (l : list float) :
  observations l <> [] -> observations (rev l) <> [].
Proof.
  rewrite observations_rev. intros H E. apply H.
  apply (f_equal (@rev Q)) in E. now rewrite rev_involutive in E.
Qed.

(* ------------------------------------------------------------------ *)
(** ** [astype(int)] on integral columns *)

Lemma astype_int_integral (s : Series) :
  Forall integral s -> exists zs, astype_int s = Ok zs /\ map of_int zs = s.
Proof.
  induction 1 as [|x s [z ->] _ (zs & E & M)].
  - exists []. auto.
  - exists (z :: zs). simpl. rewrite E. simpl.
    rewrite Z.quot_1_r. split; [reflexivity | now rewrite M].
Qed.

Lemma lambda_high_integral (x : list float) :
  observations x <> [] -> integral (lambda_high x).
Proof.
  intros H. unfold lambda_high, argmax.
  destruct (argmax_val_Some (rev x) (observations_rev_nonempty _ H))
    as (p & m & ->).
  simpl. eexists; reflexivity.
Qed.

Lemma lambda_low_integral (x : list float) :
  observations x <> [] -> integral (lambda_low x).
Proof.
  intros H. unfold lambda_low, argmin.
  destruct (argmin_val_Some (rev x) (observations_rev_nonempty _ H))
    as (p & m & ->).
  simpl. eexists; reflexivity.
Qed.

(** On a column of finite prices with a window of at least one row, every
    window holds an observation, so [apply] calls the lambda on every row. *)
Lemma window_Fin_observed (qs : list Q) (w i : nat) :
  0 < w -> i < length qs ->
  observations (window_at w i (map prep (map Fin qs))) = window_at w i qs
  /\ window_at w i qs <> [].
Proof.
  intros Hw Hi. rewrite prep_Fin, window_at_map, observations_Fin.
  split; [reflexivity|].
  intros E. apply (f_equal (@length Q)) in E.
  rewrite length_window_at in E by exact Hi. simpl in E. lia.
Qed.

Lemma Rolling_apply_integral (f : list float -> float) (qs : list Q) (w : nat) :
  (forall x, observations x <> [] -> integral (f x)) ->
  0 < w ->
  Forall integral (Rolling_apply f (mkRolling (map Fin qs) w 1)).
Proof.
  intros Hf Hw. apply Forall_forall. intros y Hy.
  apply In_nth_error in Hy as [i Hi].
  assert (Hlen : i < length qs).
  { assert (L : i < length (Rolling_apply f (mkRolling (map Fin qs) w 1)))
      by (apply nth_error_Some; congruence).
    rewrite length_Rolling_apply in L. simpl in L. now rewrite length_map in L. }
  rewrite nth_error_Rolling_apply in Hi by (simpl; now rewrite length_map).
  cbn [obj window min_periods] in Hi. injection Hi as <-.
  destruct (window_Fin_observed qs w i Hw Hlen) as [E NE].
  cbv zeta. rewrite E.
  destruct (window_at w i qs) as [|a t] eqn:W; [congruence|].
  cbn [length Nat.ltb Nat.leb]. apply Hf. rewrite E. discriminate.
Qed.

(* ------------------------------------------------------------------ *)
(** ** What [calculate_metrics] leaves in the store *)

Lemma bind_Ok {A B} (m : M A) (k : A -> M B) (h h' : heap) (a : A) :
  m h = (Ok a, h') -> bind m k h = k a h'.
Proof. intros E. unfold bind. now rewrite E. Qed.

Lemma lift_Ok {A} (r : result A) (a : A) (h : heap) :
  r = Ok a -> lift r h = (Ok a, h).
Proof. intros ->. reflexivity. Qed.

(** Symbolic evaluation of column names and of one statement of the body. *)
Ltac names :=
  cbn [df_get df_set String.eqb Ascii.eqb Bool.eqb fname String.append
       High_Last Low_Last Days_Since_High_Last Days_Since_Low_Last
       High_Next Low_Next Diff_From_High_Last Diff_From_Low_Last
       Diff_From_High_Next Diff_From_Low_Next];
  rewrite ?String.eqb_refl.

Ltac step :=
  etransitivity;
  [ apply bind_Ok;
    first
      [ apply getseries_last; repeat (progress names); reflexivity
      | apply setitem_last
      | apply lift_Ok; apply rolling_min_periods_1; assumption
      | apply lift_Ok; eassumption ]
  | cbv beta; repeat (progress names) ].

Section Outcome.

Variables (rows : list PriceRow) (variable1 variable2 : Z).

Hypothesis Hv1 : (0 < variable1)%Z.
Hypothesis Hv2 : (0 < variable2)%Z.

Lemma since_high_integral :
  exists dh, astype_int (since_high rows variable1) = Ok dh
           /\ map of_int dh = since_high rows variable1.
Proof.
  apply astype_int_integral. unfold since_high, fin_col.
  rewrite <- map_map with (f := High) (g := Fin).
  apply Rolling_apply_integral; [apply lambda_high_integral | lia].
Qed.

Lemma since_low_integral :
  exists dl, astype_int (since_low rows variable1) = Ok dl
           /\ map of_int dl = since_low rows variable1.
Proof.
  apply astype_int_integral. unfold since_low, fin_col.
  rewrite <- map_map with (f := Low) (g := Fin).
  apply Rolling_apply_integral; [apply lambda_low_integral | lia].
Qed.

Lemma calculate_metrics_run (h : heap) (data : ref) :
  nth_error h data = Some (from_rows rows) ->
  exists dh dl,
    map of_int dh = since_high rows variable1 /\
  map of_int dl = since_low rows variable1 /\
    calculate_metrics data variable1 variable2 h =
      (Ok (length h), h ++ [metrics_frame rows variable1 variable2 dh dl]).
Proof.
  intros Hd.
  destruct since_high_integral as (dh & Eh & Mh).
  destruct since_low_integral as (dl & El & Ml).
  exists dh, dl. split; [exact Mh|]. split; [exact Ml|].
  unfold since_high in Eh. unfold since_low in El.
  unfold calculate_metrics.
  rewrite bind_Ok with (a := length h) (h' := h ++ [from_rows rows])
    by (unfold DataFrame_copy; now rewrite Hd).
  unfold from_rows.
  repeat step.
  reflexivity.
Qed.

End Outcome.

(* ------------------------------------------------------------------ *)
(** ** Maximum and minimum of the observations *)

Lemma qmax_cases (a b : Q) :
  (qmax a b = b /\ (a <= b)%Q) \/ (qmax a b = a /\ (b < a)%Q).
Proof.
  unfold qmax. destruct (Qle_bool a b) eqn:E.
  - left. split; [reflexivity | now apply Qle_bool_iff].
  - right. split; [reflexivity|]. apply Qnot_le_lt. intros H.
    apply Qle_bool_iff in H. congruence.
Qed.

Lemma qmin_cases (a b : Q) :
  (qmin a b = b /\ (b <= a)%Q) \/ (qmin a b = a /\ (a < b)%Q).
Proof.
  unfold qmin. destruct (Qle_bool b a) eqn:E.
  - left. split; [reflexivity | now apply Qle_bool_iff].
  - right. split; [reflexivity|]. apply Qnot_le_lt. intros H.
    apply Qle_bool_iff in H. congruence.
Qed.

Lemma fold_qmax_is_max (t : list Q) (x : Q) :
  is_max_of (fold_left qmax t x) (x :: t).
Proof.
  revert x. induction t as [|y t IH]; intros x; simpl.
  - split; [now left|]. intros z [<-|[]]. apply Qle_refl.
  - destruct (IH (qmax x y)) as [Hin Hub]. split.
    + destruct Hin as [E|Hin]; [|now right; right].
      rewrite <- E. destruct (qmax_cases x y) as [[-> _]|[-> _]]; simpl; auto.
    + intros z Hz.
      assert (Hx : (x <= qmax x y)%Q /\ (y <= qmax x y)%Q).
      { destruct (qmax_cases x y) as [[-> H]|[-> H]]; split;
          auto using Qle_refl, Qlt_le_weak. }
      assert (Hm : (qmax x y <= fold_left qmax t (qmax x y))%Q)
        by (apply Hub; now left).
      destruct Hz as [<-|[<-|Hz]].
      * eapply Qle_trans; [apply Hx | exact Hm].
      * eapply Qle_trans; [apply Hx | exact Hm].
      * apply Hub. now right.
Qed.

Lemma fold_qmin_is_min (t : list Q) (x : Q) :
  is_min_of (fold_left qmin t x) (x :: t).
Proof.
  revert x. induction t as [|y t IH]; intros x; simpl.
  - split; [now left|]. intros z [<-|[]]. apply Qle_refl.
  - destruct (IH (qmin x y)) as [Hin Hlb]. split.
    + destruct Hin as [E|Hin]; [|now right; right].
      rewrite <- E. destruct (qmin_cases x y) as [[-> _]|[-> _]]; simpl; auto.
    + intros z Hz.
      assert (Hx : (qmin x y <= x)%Q /\ (qmin x y <= y)%Q).
      { destruct (qmin_cases x y) as [[-> H]|[-> H]]; split;
          auto using Qle_refl, Qlt_le_weak. }
      assert (Hm : (fold_left qmin t (qmin x y) <= qmin x y)%Q)
        by (apply Hlb; now left).
      destruct Hz as [<-|[<-|Hz]].
      * eapply Qle_trans; [exact Hm | apply Hx].
      * eapply Qle_trans; [exact Hm | apply Hx].
      * apply Hlb. now right.
Qed.

Lemma agg_max_spec (obs : list Q) :
  match agg_max obs with
  | Fin m => is_max_of m obs
  | NaN => obs = []
  | _ => False
  end.
Proof. destruct obs as [|x t]; simpl; [reflexivity | apply fold_qmax_is_max]. Qed.

Lemma agg_min_spec (obs : list Q) :
  match agg_min obs with
  | Fin m => is_min_of m obs
  | NaN => obs = []
  | _ => False
  end.
Proof. destruct obs as [|x t]; simpl; [reflexivity | apply fold_qmin_is_min]. Qed.

(** One row of a reduction with [min_periods=1]. *)
Lemma reduce_min_periods_1 (f : list Q -> float) (obs : list Q) :
  f [] = NaN -> (if length obs <? 1 then NaN else f obs) = f obs.
Proof. intros E. destruct obs; simpl; auto. Qed.

(* ------------------------------------------------------------------ *)
(** ** The shifted series and its windows *)

Lemma firstn_repeat {A} (x : A) (b n : nat) :
  firstn b (repeat x n) = repeat x (Nat.min b n).
Proof.
  revert n; induction b as [|b IH]; intros [|n]; simpl; auto. now rewrite IH.
Qed.

Lemma skipn_repeat {A} (x : A) (a n : nat) :
  skipn a (repeat x n) = repeat x (n - a).
Proof.
  revert n; induction a as [|a IH]; intros [|n]; simpl; auto.
Qed.

Lemma shift_back_Fin (k : Z) (qs : list Q) :
  (0 < k)%Z ->
  map prep (shift (- k) (map Fin qs)) =
    map Fin (skipn (Z.to_nat k) qs)
      ++ repeat NaN (Nat.min (Z.to_nat k) (length qs)).
Proof.
  intros Hk. unfold shift.
  destruct (Z.leb_spec 0 (- k)); [lia|].
  rewrite Z.opp_involutive, map_app, skipn_map, prep_Fin, length_map.
  f_equal. induction (Nat.min (Z.to_nat k) (length qs)); simpl; congruence.
Qed.

Lemma length_shift (k : Z) (s : Series) : length (shift k s) = length s.
Proof.
  unfold shift. destruct (0 <=? k)%Z.
  - rewrite length_firstn, length_app, repeat_length. lia.
  - rewrite length_app, length_skipn, repeat_length. lia.
Qed.

(** The observations that the window of size [k] ending at row [i] of the
    series shifted back by [k] holds: rows [max(k, i+1) .. i+k] of the
    original series. *)
Lemma observations_shifted_window (k i : nat) (qs : list Q) :
  observations
    (window_at k i (map Fin (skipn k qs) ++ repeat NaN (Nat.min k (length qs))))
  = skipn (Nat.max k (i + 1)) (firstn (i + k + 1) qs).
Proof.
  unfold window_at.
  rewrite firstn_app, skipn_app, observations_app.
  rewrite firstn_repeat, skipn_repeat, observations_NaN, app_nil_r.
  rewrite firstn_map, skipn_map, observations_Fin.
  rewrite firstn_skipn_comm, skipn_skipn.
  replace (i + 1 - k + k) with (Nat.max k (i + 1)) by lia.
  replace (k + (i + 1)) with (i + k + 1) by lia. reflexivity.
Qed.

Lemma shifted_window_as_window (k i : nat) (qs : list Q) :
  skipn (Nat.max k (i + 1)) (firstn (i + k + 1) qs)
  = window_at (Nat.min k (i + 1)) (i + k) qs.
Proof.
  unfold window_at.
  replace (i + k + 1 - Nat.min k (i + 1)) with (Nat.max k (i + 1)) by lia.
  reflexivity.
Qed.

(* ------------------------------------------------------------------ *)
(** ** Rows of the rolling columns *)

Lemma fin_col_map (f : PriceRow -> Q) (rows : list PriceRow) :
  fin_col f rows = map Fin (map f rows).
Proof. unfold fin_col. now rewrite map_map. Qed.

Lemma length_fin_col (f : PriceRow -> Q) (rows : list PriceRow) :
  length (fin_col f rows) = length rows.
Proof. apply length_map. Qed.

(** Trailing window, [min_periods=1], finite prices. *)
Lemma trailing_row (f : list Q -> float) (qs : list Q) (w i : nat) :
  0 < w -> i < length qs ->
  nth_error (Rolling_reduce f (mkRolling (map Fin qs) w 1)) i
  = Some (f (window_at w i qs)).
Proof.
  intros Hw Hi.
  rewrite nth_error_Rolling_reduce by (simpl; now rewrite length_map).
  cbn [obj window min_periods]. cbv zeta.
  destruct (window_Fin_observed qs w i Hw Hi) as [-> NE].
  destruct (window_at w i qs); [congruence | reflexivity].
Qed.

(** Forward window: [shift(-k)] then a window of size [k], [min_periods=1]. *)
Lemma forward_row (f : list Q -> float) (qs : list Q) (k : Z) (i : nat) :
  f [] = NaN -> (0 < k)%Z -> i < length qs ->
  nth_error
    (Rolling_reduce f (mkRolling (shift (- k) (map Fin qs)) (Z.to_nat k) 1)) i
  = Some (f (window_at (Nat.min (Z.to_nat k) (i + 1)) (i + Z.to_nat k) qs)).
Proof.
  intros Hf Hk Hi.
  rewrite nth_error_Rolling_reduce
    by (simpl; now rewrite length_shift, length_map).
  cbn [obj window min_periods]. cbv zeta.
  rewrite shift_back_Fin by exact Hk.
  rewrite observations_shifted_window, shifted_window_as_window.
  now rewrite reduce_min_periods_1.
Qed.

Lemma In_window_rows (f : PriceRow -> Q) (rows : list PriceRow) (w i : nat) (x : Q) :
  In x (window_at w i (map f rows)) <->
  exists j r, i + 1 - w <= j <= i /\ nth_error rows j = Some r /\ f r = x.
Proof.
  rewrite In_window_at. split.
  - intros (j & Hj & E). rewrite nth_error_map in E.
    destruct (nth_error rows j) as [r|] eqn:R; [|discriminate].
    injection E as <-. eauto.
  - intros (j & r & Hj & R & <-). exists j. split; [exact Hj|].
    now rewrite nth_error_map, R.
Qed.

Lemma is_max_window (f : PriceRow -> Q) (rows : list PriceRow) (w i : nat) (m : Q) :
  is_max_of m (window_at w i (map f rows)) ->
  max_over f rows (i + 1 - w) i m.
Proof.
  intros [Hin Hub]. split.
  - now apply In_window_rows.
  - intros j r Hj R. apply Hub. apply In_window_rows. eauto.
Qed.

Lemma is_min_window (f : PriceRow -> Q) (rows : list PriceRow) (w i : nat) (m : Q) :
  is_min_of m (window_at w i (map f rows)) ->
  min_over f rows (i + 1 - w) i m.
Proof.
  intros [Hin Hlb]. split.
  - now apply In_window_rows.
  - intros j r Hj R. apply Hlb. apply In_window_rows. eauto.
Qed.

(* ------------------------------------------------------------------ *)
(** ** Reading the returned frame *)

Ltac lookup :=
  unfold float_at, int_at, date_at, metrics_frame, from_rows;
  cbn [app]; repeat (progress names); reflexivity.

Section Lookup.

Variables (rows : list PriceRow) (v1 v2 : Z) (dh dl : list Z) (i : nat).

Let out := metrics_frame rows v1 v2 dh dl.

Lemma at_High_Last :
  float_at out (High_Last v1) i = nth_error (high_last rows v1) i.
Proof. subst out. lookup. Qed.

Lemma at_Low_Last :
  float_at out (Low_Last v1) i = nth_error (low_last rows v1) i.
Proof. subst out. lookup. Qed.

Lemma at_Days_Since_High_Last :
  int_at out (Days_Since_High_Last v1) i = nth_error dh i.
Proof. subst out. lookup. Qed.

Lemma at_Days_Since_Low_Last :
  int_at out (Days_Since_Low_Last v1) i = nth_error dl i.
Proof. subst out. lookup. Qed.

Lemma at_High_Next :
  float_at out (High_Next v2) i = nth_error (high_next rows v2) i.
Proof. subst out. lookup. Qed.

Lemma at_Low_Next :
  float_at out (Low_Next v2) i = nth_error (low_next rows v2) i.
Proof. subst out. lookup. Qed.

Lemma at_Diff_From_High_Last :
  float_at out (Diff_From_High_Last v1) i
  = nth_error (pct rows (high_last rows v1)) i.
Proof. subst out. lookup. Qed.

Lemma at_Diff_From_Low_Last :
  float_at out (Diff_From_Low_Last v1) i
  = nth_error (pct rows (low_last rows v1)) i.
Proof. subst out. lookup. Qed.

Lemma at_Diff_From_High_Next :
  float_at out (Diff_From_High_Next v2) i
  = nth_error (pct rows (high_next rows v2)) i.
Proof. subst out. lookup. Qed.

Lemma at_Diff_From_Low_Next :
  float_at out (Diff_From_Low_Next v2) i
  = nth_error (pct rows (low_next rows v2)) i.
Proof. subst out. lookup. Qed.

End Lookup.

(** The call of [metrics_of]: positive windows never raise. *)
Lemma metrics_of_run (rows : list PriceRow) (v1 v2 : Z) :
  (0 < v1)%Z -> (0 < v2)%Z ->
  exists dh dl,
    map of_int dh = since_high rows v1 /\
    map of_int dl = since_low rows v1 /\
    metrics_of rows v1 v2 =
      (Ok (metrics_frame rows v1 v2 dh dl),
       [from_rows rows; metrics_frame rows v1 v2 dh dl]).
Proof.
  intros H1 H2.
  destruct (calculate_metrics_run rows v1 v2 H1 H2 [from_rows rows] 0 eq_refl)
    as (dh & dl & Mh & Ml & E).
  exists dh, dl. split; [exact Mh|]. split; [exact Ml|].
  unfold metrics_of. rewrite E. reflexivity.
Qed.

(* ------------------------------------------------------------------ *)
(** ** Trailing extrema *)

Lemma trailing_start_nat (i : nat) (w : Z) :
  (0 < w)%Z -> trailing_start i w = i + 1 - Z.to_nat w.
Proof. unfold trailing_start. lia. Qed.

Lemma high_last_row (rows : list PriceRow) (v1 : Z) (i : nat) :
  (0 < v1)%Z -> i < length rows ->
  exists m, nth_error (high_last rows v1) i = Some (Fin m)
            /\ max_over High rows (trailing_start i v1) i m.
Proof.
  intros Hv Hi. unfold high_last, Rolling_max.
  rewrite fin_col_map, trailing_row by (rewrite ?length_map; lia).
  pose proof (agg_max_spec (window_at (Z.to_nat v1) i (map High rows))) as S.
  pose proof (window_Fin_observed (map High rows) (Z.to_nat v1) i) as [_ NE];
    [lia | now rewrite length_map |].
  destruct (agg_max _) as [m| | |]; try contradiction.
  exists m. split; [reflexivity|].
  rewrite trailing_start_nat by exact Hv. now apply is_max_window.
Qed.

Lemma low_last_row (rows : list PriceRow) (v1 : Z) (i : nat) :
  (0 < v1)%Z -> i < length rows ->
  exists m, nth_error (low_last rows v1) i = Some (Fin m)
            /\ min_over Low rows (trailing_start i v1) i m.
Proof.
  intros Hv Hi. unfold low_last, Rolling_min.
  rewrite fin_col_map, trailing_row by (rewrite ?length_map; lia).
  pose proof (agg_min_spec (window_at (Z.to_nat v1) i (map Low rows))) as S.
  pose proof (window_Fin_observed (map Low rows) (Z.to_nat v1) i) as [_ NE];
    [lia | now rewrite length_map |].
  destruct (agg_min _) as [m| | |]; try contradiction.
  exists m. split; [reflexivity|].
  rewrite trailing_start_nat by exact Hv. now apply is_min_window.
Qed.

(** C5. For every sequence of price rows, all positive [W1] (and [W2]) and
    every row index [i], the call returns a frame whose [High_Last_W1_Days]
    at row [i] is a defined number, the maximum of [High] over rows
    [max(0, i-W1+1) .. i], and whose [Low_Last_W1_Days] at row [i] is the
    minimum of [Low] over the same rows: the window ends at the current
    row, never looks ahead, and always holds at least row [i]. *)
Theorem trailing_extrema (rows : list PriceRow) (W1 W2 : Z) (i : nat) :
  (0 < W1)%Z -> (0 < W2)%Z -> i < length rows ->
  exists out hi lo,
    fst (metrics_of rows W1 W2) = Ok out /\
    float_at out (High_Last W1) i = Some (Fin hi) /\
    max_over High rows (trailing_start i W1) i hi /\
    float_at out (Low_Last W1) i = Some (Fin lo) /\
    min_over Low rows (trailing_start i W1) i lo.
Proof.
  intros H1 H2 Hi.
  destruct (metrics_of_run rows W1 W2 H1 H2) as (dh & dl & _ & _ & E).
  destruct (high_last_row rows W1 i H1 Hi) as (hi & Ehi & Mhi).
  destruct (low_last_row rows W1 i H1 Hi) as (lo & Elo & Mlo).
  exists (metrics_frame rows W1 W2 dh dl), hi, lo.
  rewrite E, at_High_Last, at_Low_Last. auto.
Qed.

Lemma trailing_extrema_witness :
  exists out hi lo,
    fst (metrics_of rows_553 3 2) = Ok out /\
    float_at out (High_Last 3) 2 = Some (Fin hi) /\
    max_over High rows_553 (trailing_start 2 3) 2 hi /\
    float_at out (Low_Last 3) 2 = Some (Fin lo) /\
    min_over Low rows_553 (trailing_start 2 3) 2 lo.
Proof.
  apply (trailing_extrema rows_553 3 2 2); [reflexivity | reflexivity | simpl; lia].
Defined.

(* ------------------------------------------------------------------ *)
(** ** Forward extrema *)

(** Row [i] of [High_Next] / [Low_Next]: the aggregate of rows
    [max(W2, i+1) .. i+W2] of the column, those that exist. *)
Lemma high_next_row (rows : list PriceRow) (v2 : Z) (i : nat) :
  (0 < v2)%Z -> i < length rows ->
  nth_error (high_next rows v2) i
  = Some (agg_max (window_at (Nat.min (Z.to_nat v2) (i + 1)) (i + Z.to_nat v2)
                             (map High rows))).
Proof.
  intros Hv Hi. unfold high_next, Rolling_max.
  rewrite fin_col_map. apply forward_row; auto. now rewrite length_map.
Qed.

Lemma low_next_row (rows : list PriceRow) (v2 : Z) (i : nat) :
  (0 < v2)%Z -> i < length rows ->
  nth_error (low_next rows v2) i
  = Some (agg_min (window_at (Nat.min (Z.to_nat v2) (i + 1)) (i + Z.to_nat v2)
                             (map Low rows))).
Proof.
  intros Hv Hi. unfold low_next, Rolling_min.
  rewrite fin_col_map. apply forward_row; auto. now rewrite length_map.
Qed.

Lemma forward_window_empty {A} (k i : nat) (l : list A) :
  0 < k ->
  window_at (Nat.min k (i + 1)) (i + k) l = [] <->
  length l <= k \/ length l <= i + 1.
Proof.
  intros Hk. unfold window_at.
  rewrite <- skipn_all_iff, length_firstn. lia.
Qed.

(** The forward field of row [i] is NaN exactly when the series has at most
    [W2] rows or [i] is its last row; otherwise it is the extremum of rows
    [max(W2, i+1) .. min(i+W2, n-1)]. *)
Lemma high_next_cases (rows : list PriceRow) (v2 : Z) (i : nat) :
  (0 < v2)%Z -> i < length rows ->
  exists x, nth_error (high_next rows v2) i = Some x /\
    ((x = NaN /\ (Z.of_nat (length rows) <= v2)%Z)
     \/ (x = NaN /\ i + 1 = length rows)
     \/ (exists m, x = Fin m /\ (v2 < Z.of_nat (length rows))%Z
                   /\ i + 1 < length rows
                   /\ max_over High rows (Nat.max (Z.to_nat v2) (i + 1))
                               (i + Z.to_nat v2) m)).
Proof.
  intros Hv Hi. rewrite high_next_row by assumption.
  eexists; split; [reflexivity|].
  pose proof (forward_window_empty (Z.to_nat v2) i (map High rows)) as EM.
  rewrite length_map in EM.
  pose proof (agg_max_spec (window_at (Nat.min (Z.to_nat v2) (i + 1))
                                      (i + Z.to_nat v2) (map High rows))) as S.
  destruct (agg_max _) as [m| | |]; try contradiction.
  - right; right. exists m. split; [reflexivity|].
    assert (NE : window_at (Nat.min (Z.to_nat v2) (i + 1)) (i + Z.to_nat v2)
                           (map High rows) <> []).
    { intros E. destruct S as [Hin _]. rewrite E in Hin. contradiction. }
    assert (~ (length rows <= Z.to_nat v2 \/ length rows <= i + 1))
      by (intros C; apply NE, EM; [lia | exact C]).
    split; [lia|]. split; [lia|].
    apply is_max_window in S.
    replace (i + Z.to_nat v2 + 1 - Nat.min (Z.to_nat v2) (i + 1))
      with (Nat.max (Z.to_nat v2) (i + 1)) in S by lia.
    exact S.
  - apply EM in S; [|lia]. destruct S; [left | right; left]; split; auto; lia.
Qed.

Lemma low_next_cases (rows : list PriceRow) (v2 : Z) (i : nat) :
  (0 < v2)%Z -> i < length rows ->
  exists x, nth_error (low_next rows v2) i = Some x /\
    ((x = NaN /\ (Z.of_nat (length rows) <= v2)%Z)
     \/ (x = NaN /\ i + 1 = length rows)
     \/ (exists m, x = Fin m /\ (v2 < Z.of_nat (length rows))%Z
                   /\ i + 1 < length rows
                   /\ min_over Low rows (Nat.max (Z.to_nat v2) (i + 1))
                               (i + Z.to_nat v2) m)).
Proof.
  intros Hv Hi. rewrite low_next_row by assumption.
  eexists; split; [reflexivity|].
  pose proof (forward_window_empty (Z.to_nat v2) i (map Low rows)) as EM.
  rewrite length_map in EM.
  pose proof (agg_min_spec (window_at (Nat.min (Z.to_nat v2) (i + 1))
                                      (i + Z.to_nat v2) (map Low rows))) as S.
  destruct (agg_min _) as [m| | |]; try contradiction.
  - right; right. exists m. split; [reflexivity|].
    assert (NE : window_at (Nat.min (Z.to_nat v2) (i + 1)) (i + Z.to_nat v2)
                           (map Low rows) <> []).
    { intros E. destruct S as [Hin _]. rewrite E in Hin. contradiction. }
    assert (~ (length rows <= Z.to_nat v2 \/ length rows <= i + 1))
      by (intros C; apply NE, EM; [lia | exact C]).
    split; [lia|]. split; [lia|].
    apply is_min_window in S.
    replace (i + Z.to_nat v2 + 1 - Nat.min (Z.to_nat v2) (i + 1))
      with (Nat.max (Z.to_nat v2) (i + 1)) in S by lia.
    exact S.
  - apply EM in S; [|lia]. destruct S; [left | right; left]; split; auto; lia.
Qed.

(** What the forward columns hold, for every row: the extremum of rows
    [max(W2, i+1) .. min(i+W2, n-1)] when the series has more than [W2] rows
    and row [i] is not the last, NaN otherwise. For [i >= W2 - 1] the range
    starts at [i+1]; for an earlier row it starts at [W2] and leaves out rows
    [i+1 .. W2-1]. *)
Theorem forward_extrema_rows (rows : list PriceRow) (W1 W2 : Z) (i : nat) :
  (0 < W1)%Z -> (0 < W2)%Z -> i < length rows ->
  exists out x y,
    fst (metrics_of rows W1 W2) = Ok out /\
    float_at out (High_Next W2) i = Some x /\
    float_at out (Low_Next W2) i = Some y /\
    ((x = NaN /\ y = NaN /\
      ((Z.of_nat (length rows) <= W2)%Z \/ i + 1 = length rows))
     \/
     (exists hi lo,
        x = Fin hi /\ y = Fin lo /\
        (W2 < Z.of_nat (length rows))%Z /\ i + 1 < length rows /\
        max_over High rows (Nat.max (Z.to_nat W2) (i + 1)) (i + Z.to_nat W2) hi /\
        min_over Low rows (Nat.max (Z.to_nat W2) (i + 1)) (i + Z.to_nat W2) lo)).
Proof.
  intros H1 H2 Hi.
  destruct (metrics_of_run rows W1 W2 H1 H2) as (dh & dl & _ & _ & E).
  destruct (high_next_cases rows W2 i H2 Hi) as (x & Ex & Cx).
  destruct (low_next_cases rows W2 i H2 Hi) as (y & Ey & Cy).
  exists (metrics_frame rows W1 W2 dh dl), x, y.
  rewrite E, at_High_Next, at_Low_Next.
  repeat split; auto.
  destruct Cx as [[-> Lx]|[[-> Lx]|(hi & -> & Nx & Ix & Mx)]];
    destruct Cy as [[-> Ly]|[[-> Ly]|(lo & -> & Ny & Iy & My)]];
    try lia; try (left; repeat split; auto; fail).
  right. exists hi, lo. repeat split; auto; apply Mx || apply My.
Qed.

Lemma forward_extrema_rows_witness :
  exists out x y,
    fst (metrics_of rows_peak 7 2) = Ok out /\
    float_at out (High_Next 2) 0 = Some x /\
    float_at out (Low_Next 2) 0 = Some y /\
    ((x = NaN /\ y = NaN /\
      ((Z.of_nat (length rows_peak) <= 2)%Z \/ 0 + 1 = length rows_peak))
     \/
     (exists hi lo,
        x = Fin hi /\ y = Fin lo /\
        (2 < Z.of_nat (length rows_peak))%Z /\ 0 + 1 < length rows_peak /\
        max_over High rows_peak (Nat.max (Z.to_nat 2) (0 + 1)) (0 + Z.to_nat 2) hi /\
        min_over Low rows_peak (Nat.max (Z.to_nat 2) (0 + 1)) (0 + Z.to_nat 2) lo)).
Proof.
  apply (forward_extrema_rows rows_peak 7 2 0);
    [reflexivity | reflexivity | simpl; lia].
Defined.

(** C3, as amended. For every sequence of [n >= 1] price rows and positive
    [W2]: when [W2 < n], [High_Next_W2_Days] and [Low_Next_W2_Days] are
    undefined (NaN) on exactly the final row and are finite numbers on every
    earlier row; when [n <= W2] they are undefined on all rows. *)
Theorem forward_undefined_rows (rows : list PriceRow) (W1 W2 : Z) (i : nat) :
  (0 < W1)%Z -> (0 < W2)%Z -> i < length rows ->
  exists out x y,
    fst (metrics_of rows W1 W2) = Ok out /\
    float_at out (High_Next W2) i = Some x /\
    float_at out (Low_Next W2) i = Some y /\
    ((W2 < Z.of_nat (length rows))%Z ->
       (x = NaN <-> i = length rows - 1) /\
       (y = NaN <-> i = length rows - 1) /\
       (i < length rows - 1 -> isfinite x = true /\ isfinite y = true)) /\
    ((Z.of_nat (length rows) <= W2)%Z -> x = NaN /\ y = NaN).
Proof.
  intros H1 H2 Hi.
  destruct (forward_extrema_rows rows W1 W2 i H1 H2 Hi)
    as (out & x & y & E & Ex & Ey & C).
  exists out, x, y. repeat split; auto;
    destruct C as [(-> & -> & C)|(hi & lo & -> & -> & L & I & _)];
    try reflexivity; try discriminate; try lia.
Qed.

Lemma forward_undefined_rows_witness :
  exists out x y,
    fst (metrics_of rows_553 3 2) = Ok out /\
    float_at out (High_Next 2) 1 = Some x /\
    float_at out (Low_Next 2) 1 = Some y /\
    ((2 < Z.of_nat (length rows_553))%Z ->
       (x = NaN <-> 1 = length rows_553 - 1) /\
       (y = NaN <-> 1 = length rows_553 - 1) /\
       (1 < length rows_553 - 1 -> isfinite x = true /\ isfinite y = true)) /\
    ((Z.of_nat (length rows_553) <= 2)%Z -> x = NaN /\ y = NaN).
Proof.
  apply (forward_undefined_rows rows_553 3 2 1);
    [reflexivity | reflexivity | simpl; lia].
Defined.

(** C3 as the specification states it fails: with Highs [5, 5, 3] and
    [W2 = 2], row 1 is one of the final two rows and its [High_Next_2_Days]
    is 3, not NaN. *)
Lemma undefined_on_final_W2_rows_fails :
  ~ undefined_on_final_W2_rows rows_553 7 2.
Proof.
  intros C.
  specialize (C _ 1 (Fin 3) eq_refl).
  destruct C as [_ C]; [simpl; lia | reflexivity |].
  discriminate C. simpl. lia.
Qed.

(* ------------------------------------------------------------------ *)
(** ** Days since the extremum *)

Lemma argmax_val_None (l : list float) :
  argmax_val l = None -> forall j q, nth_error l j <> Some (Fin q).
Proof.
  induction l as [|[q'| | |] l IH]; simpl; intros E j q.
  - now destruct j.
  - destruct (argmax_val l) as [[j' m]|]; [destruct (Qle_bool m q')|];
      discriminate.
  - destruct (argmax_val l) as [[j' m]|]; [discriminate|].
    destruct j; simpl; [discriminate | now apply IH].
  - destruct (argmax_val l) as [[j' m]|]; [discriminate|].
    destruct j; simpl; [discriminate | now apply IH].
  - destruct (argmax_val l) as [[j' m]|]; [discriminate|].
    destruct j; simpl; [discriminate | now apply IH].
Qed.

Lemma argmin_val_None (l : list float) :
  argmin_val l = None -> forall j q, nth_error l j <> Some (Fin q).
Proof.
  induction l as [|[q'| | |] l IH]; simpl; intros E j q.
  - now destruct j.
  - destruct (argmin_val l) as [[j' m]|]; [destruct (Qle_bool q' m)|];
      discriminate.
  - destruct (argmin_val l) as [[j' m]|]; [discriminate|].
    destruct j; simpl; [discriminate | now apply IH].
  - destruct (argmin_val l) as [[j' m]|]; [discriminate|].
    destruct j; simpl; [discriminate | now apply IH].
  - destruct (argmin_val l) as [[j' m]|]; [discriminate|].
    destruct j; simpl; [discriminate | now apply IH].
Qed.

(** [argmax]: the value at the returned position is the largest observation
    and every observation before that position is strictly smaller. *)
Lemma argmax_val_spec (l : list float) (p : nat) (m : Q) :
  argmax_val l = Some (p, m) ->
  nth_error l p = Some (Fin m) /\
  forall j q, nth_error l j = Some (Fin q) ->
              (q <= m)%Q /\ (j < p -> (q < m)%Q).
Proof.
  revert p m. induction l as [|x l IH]; intros p m E; [discriminate|].
  assert (Skip : x = NaN \/ x = PInf \/ x = NInf ->
                 exists p', p = S p' /\ argmax_val l = Some (p', m)).
  { intros Hx. simpl in E.
    destruct (argmax_val l) as [[j' m']|];
      destruct Hx as [->|[->| ->]]; try discriminate;
      injection E as <- <-; eauto. }
  destruct x as [q'| | |];
    try (destruct Skip as (p' & -> & E'); [auto|];
         destruct (IH _ _ E') as [Hp Hall]; split; [exact Hp|];
         intros [|j] q Hj; simpl in Hj; [discriminate|];
         destruct (Hall j q Hj) as [A B]; split; [exact A | intros; apply B; lia]).
  simpl in E. destruct (argmax_val l) as [[j' m']|] eqn:El.
  - destruct (IH _ _ eq_refl) as [Hp Hall].
    destruct (Qle_bool m' q') eqn:Le; injection E as <- <-.
    + apply Qle_bool_iff in Le. split; [reflexivity|].
      intros [|j] q Hj; simpl in Hj.
      * injection Hj as <-. split; [apply Qle_refl | lia].
      * destruct (Hall j q Hj) as [A _]. split; [|lia].
        eapply Qle_trans; eauto.
    + assert (Lt : (q' < m')%Q).
      { apply Qnot_le_lt. intros H. apply Qle_bool_iff in H. congruence. }
      split; [exact Hp|].
      intros [|j] q Hj; simpl in Hj.
      * injection Hj as <-. split; [now apply Qlt_le_weak | auto].
      * destruct (Hall j q Hj) as [A B]. split; [exact A | intros; apply B; lia].
  - injection E as <- <-. split; [reflexivity|].
    intros [|j] q Hj; simpl in Hj.
    + injection Hj as <-. split; [apply Qle_refl | lia].
    + now apply argmax_val_None with (j := j) (q := q) in El.
Qed.

Lemma argmin_val_spec (l : list float) (p : nat) (m : Q) :
  argmin_val l = Some (p, m) ->
  nth_error l p = Some (Fin m) /\
  forall j q, nth_error l j = Some (Fin q) ->
              (m <= q)%Q /\ (j < p -> (m < q)%Q).
Proof.
  revert p m. induction l as [|x l IH]; intros p m E; [discriminate|].
  assert (Skip : x = NaN \/ x = PInf \/ x = NInf ->
                 exists p', p = S p' /\ argmin_val l = Some (p', m)).
  { intros Hx. simpl in E.
    destruct (argmin_val l) as [[j' m']|];
      destruct Hx as [->|[->| ->]]; try discriminate;
      injection E as <- <-; eauto. }
  destruct x as [q'| | |];
    try (destruct Skip as (p' & -> & E'); [auto|];
         destruct (IH _ _ E') as [Hp Hall]; split; [exact Hp|];
         intros [|j] q Hj; simpl in Hj; [discriminate|];
         destruct (Hall j q Hj) as [A B]; split; [exact A | intros; apply B; lia]).
  simpl in E. destruct (argmin_val l) as [[j' m']|] eqn:El.
  - destruct (IH _ _ eq_refl) as [Hp Hall].
    destruct (Qle_bool q' m') eqn:Le; injection E as <- <-.
    + apply Qle_bool_iff in Le. split; [reflexivity|].
      intros [|j] q Hj; simpl in Hj.
      * injection Hj as <-. split; [apply Qle_refl | lia].
      * destruct (Hall j q Hj) as [A _]. split; [|lia].
        eapply Qle_trans; eauto.
    + assert (Lt : (m' < q')%Q).
      { apply Qnot_le_lt. intros H. apply Qle_bool_iff in H. congruence. }
      split; [exact Hp|].
      intros [|j] q Hj; simpl in Hj.
      * injection Hj as <-. split; [now apply Qlt_le_weak | auto].
      * destruct (Hall j q Hj) as [A B]. split; [exact A | intros; apply B; lia].
  - injection E as <- <-. split; [reflexivity|].
    intros [|j] q Hj; simpl in Hj.
    + injection Hj as <-. split; [apply Qle_refl | lia].
    + now apply argmin_val_None with (j := j) (q := q) in El.
Qed.

(** On a window of finite values the lambda returns the position, counted
    from the start of the window, of the last occurrence of the maximum. *)
Lemma lambda_high_position (ws : list Q) :
  ws <> [] ->
  exists c m,
    lambda_high (map Fin ws) = of_int (Z.of_nat c) /\
    nth_error ws c = Some m /\
    forall j q, nth_error ws j = Some q -> (q <= m)%Q /\ (c < j -> (q < m)%Q).
Proof.
  intros NE.
  assert (Obs : observations (rev (map Fin ws)) <> []).
  { apply observations_rev_nonempty. now rewrite observations_Fin. }
  destruct (argmax_val_Some _ Obs) as (p & m & E).
  destruct (argmax_val_spec _ _ _ E) as [Hp Hall].
  rewrite <- map_rev in Hp, Hall.
  rewrite nth_error_map, nth_error_rev in Hp.
  destruct (Nat.ltb_spec p (length ws)) as [Lp|]; [|discriminate].
  destruct (nth_error ws (length ws - S p)) as [m'|] eqn:Ec; [|discriminate].
  injection Hp as ->.
  exists (length ws - S p), m. split; [|split; [exact Ec|]].
  - unfold lambda_high, argmax. rewrite E. simpl. rewrite length_map.
    f_equal. lia.
  - intros j q Hj.
    assert (Lj : j < length ws) by (apply nth_error_Some; congruence).
    specialize (Hall (length ws - S j) q).
    rewrite nth_error_map, nth_error_rev in Hall.
    destruct (Nat.ltb_spec (length ws - S j) (length ws)); [|lia].
    replace (length ws - S (length ws - S j)) with j in Hall by lia.
    rewrite Hj in Hall. destruct (Hall eq_refl) as [A B].
    split; [exact A | intros; apply B; lia].
Qed.

Lemma lambda_low_position (ws : list Q) :
  ws <> [] ->
  exists c m,
    lambda_low (map Fin ws) = of_int (Z.of_nat c) /\
    nth_error ws c = Some m /\
    forall j q, nth_error ws j = Some q -> (m <= q)%Q /\ (c < j -> (m < q)%Q).
Proof.
  intros NE.
  assert (Obs : observations (rev (map Fin ws)) <> []).
  { apply observations_rev_nonempty. now rewrite observations_Fin. }
  destruct (argmin_val_Some _ Obs) as (p & m & E).
  destruct (argmin_val_spec _ _ _ E) as [Hp Hall].
  rewrite <- map_rev in Hp, Hall.
  rewrite nth_error_map, nth_error_rev in Hp.
  destruct (Nat.ltb_spec p (length ws)) as [Lp|]; [|discriminate].
  destruct (nth_error ws (length ws - S p)) as [m'|] eqn:Ec; [|discriminate].
  injection Hp as ->.
  exists (length ws - S p), m. split; [|split; [exact Ec|]].
  - unfold lambda_low, argmin. rewrite E. simpl. rewrite length_map.
    f_equal. lia.
  - intros j q Hj.
    assert (Lj : j < length ws) by (apply nth_error_Some; congruence).
    specialize (Hall (length ws - S j) q).
    rewrite nth_error_map, nth_error_rev in Hall.
    destruct (Nat.ltb_spec (length ws - S j) (length ws)); [|lia].
    replace (length ws - S (length ws - S j)) with j in Hall by lia.
    rewrite Hj in Hall. destruct (Hall eq_refl) as [A B].
    split; [exact A | intros; apply B; lia].
Qed.

Lemma window_position_row (f : PriceRow -> Q) (rows : list PriceRow)
      (w i c : nat) (m : Q) :
  nth_error (window_at w i (map f rows)) c = Some m ->
  i + 1 - w + c <= i /\
  exists r, nth_error rows (i + 1 - w + c) = Some r /\ f r = m.
Proof.
  rewrite nth_error_window_at.
  destruct (Nat.ltb_spec (i + 1 - w + c) (i + 1)); [|discriminate].
  rewrite nth_error_map.
  destruct (nth_error rows (i + 1 - w + c)) as [r|]; [|discriminate].
  intros [= <-]. split; [lia | eauto].
Qed.

Lemma row_window_position (f : PriceRow -> Q) (rows : list PriceRow)
      (w i j : nat) (r : PriceRow) :
  i + 1 - w <= j <= i -> nth_error rows j = Some r ->
  nth_error (window_at w i (map f rows)) (j - (i + 1 - w)) = Some (f r).
Proof.
  intros Hj R. rewrite nth_error_window_at.
  replace (i + 1 - w + (j - (i + 1 - w))) with j by lia.
  destruct (Nat.ltb_spec j (i + 1)); [|lia].
  now rewrite nth_error_map, R.
Qed.

Lemma nth_error_of_int (zs : list Z) (s : Series) (i : nat) (c : nat) :
  map of_int zs = s -> nth_error s i = Some (of_int (Z.of_nat c)) ->
  nth_error zs i = Some (Z.of_nat c).
Proof.
  intros <-. rewrite nth_error_map.
  destruct (nth_error zs i) as [z|]; [|discriminate].
  intros E. injection E as ->. reflexivity.
Qed.

Lemma since_high_row (rows : list PriceRow) (v1 : Z) (i : nat) :
  (0 < v1)%Z -> i < length rows ->
  exists p,
    nth_error (since_high rows v1) i
      = Some (of_int (Z.of_nat (p - trailing_start i v1))) /\
    last_max_at High rows (trailing_start i v1) i p.
Proof.
  intros Hv Hi. rewrite trailing_start_nat by exact Hv.
  set (w := Z.to_nat v1). unfold since_high. fold w.
  rewrite nth_error_Rolling_apply by (simpl; now rewrite length_fin_col).
  cbn [obj window min_periods]. cbv zeta.
  rewrite fin_col_map.
  destruct (window_Fin_observed (map High rows) w i) as [E NE];
    [lia | now rewrite length_map |].
  rewrite E, prep_Fin, (window_at_map Fin).
  destruct (lambda_high_position _ NE) as (c & m & L & Ec & Hall).
  destruct (window_position_row _ _ _ _ _ _ Ec) as (Hc & r & R & <-).
  exists (i + 1 - w + c). split.
  - replace (length (window_at w i (map High rows)) <? 1) with false
      by (destruct (window_at w i (map High rows)); [congruence | reflexivity]).
    rewrite L. do 3 f_equal. lia.
  - split; [lia|]. exists r. split; [exact R|]. split.
    + intros j r' Hj R'. eapply Hall, row_window_position; eauto.
    + intros j r' Hj R'.
      eapply (Hall (j - (i + 1 - w))); [apply row_window_position; eauto; lia | lia].
Qed.

Lemma since_low_row (rows : list PriceRow) (v1 : Z) (i : nat) :
  (0 < v1)%Z -> i < length rows ->
  exists p,
    nth_error (since_low rows v1) i
      = Some (of_int (Z.of_nat (p - trailing_start i v1))) /\
    last_min_at Low rows (trailing_start i v1) i p.
Proof.
  intros Hv Hi. rewrite trailing_start_nat by exact Hv.
  set (w := Z.to_nat v1). unfold since_low. fold w.
  rewrite nth_error_Rolling_apply by (simpl; now rewrite length_fin_col).
  cbn [obj window min_periods]. cbv zeta.
  rewrite fin_col_map.
  destruct (window_Fin_observed (map Low rows) w i) as [E NE];
    [lia | now rewrite length_map |].
  rewrite E, prep_Fin, (window_at_map Fin).
  destruct (lambda_low_position _ NE) as (c & m & L & Ec & Hall).
  destruct (window_position_row _ _ _ _ _ _ Ec) as (Hc & r & R & <-).
  exists (i + 1 - w + c). split.
  - replace (length (window_at w i (map Low rows)) <? 1) with false
      by (destruct (window_at w i (map Low rows)); [congruence | reflexivity]).
    rewrite L. do 3 f_equal. lia.
  - split; [lia|]. exists r. split; [exact R|]. split.
    + intros j r' Hj R'. eapply Hall, row_window_position; eauto.
    + intros j r' Hj R'.
      eapply (Hall (j - (i + 1 - w))); [apply row_window_position; eauto; lia | lia].
Qed.

(** X21. What the two [Days_Since] columns hold, for every row [i]: with [p] the
    row of the most recent maximum of [High] (minimum of [Low]) in the
    trailing window, the cell is [p - max(0, i-W1+1)], the distance of [p]
    from the first row of the window, and not [i - p]. *)
Theorem days_since_counts_from_window_start
        (rows : list PriceRow) (W1 W2 : Z) (i : nat) :
  (0 < W1)%Z -> (0 < W2)%Z -> i < length rows ->
  exists out ph pl,
    fst (metrics_of rows W1 W2) = Ok out /\
    last_max_at High rows (trailing_start i W1) i ph /\
    int_at out (Days_Since_High_Last W1) i
      = Some (Z.of_nat ph - Z.of_nat (trailing_start i W1))%Z /\
    last_min_at Low rows (trailing_start i W1) i pl /\
    int_at out (Days_Since_Low_Last W1) i
      = Some (Z.of_nat pl - Z.of_nat (trailing_start i W1))%Z.
Proof.
  intros H1 H2 Hi.
  destruct (metrics_of_run rows W1 W2 H1 H2) as (dh & dl & Mh & Ml & E).
  destruct (since_high_row rows W1 i H1 Hi) as (ph & Eh & Lh).
  destruct (since_low_row rows W1 i H1 Hi) as (pl & El & Ll).
  exists (metrics_frame rows W1 W2 dh dl), ph, pl.
  rewrite E, at_Days_Since_High_Last, at_Days_Since_Low_Last.
  rewrite (nth_error_of_int _ _ _ _ Mh Eh), (nth_error_of_int _ _ _ _ Ml El).
  destruct Lh as [Bh Lh], Ll as [Bl Ll].
  repeat split; auto; try lia; f_equal; lia.
Qed.

Lemma days_since_counts_from_window_start_witness :
  exists out ph pl,
    fst (metrics_of rows_rising 2 1) = Ok out /\
    last_max_at High rows_rising (trailing_start 1 2) 1 ph /\
    int_at out (Days_Since_High_Last 2) 1
      = Some (Z.of_nat ph - Z.of_nat (trailing_start 1 2))%Z /\
    last_min_at Low rows_rising (trailing_start 1 2) 1 pl /\
    int_at out (Days_Since_Low_Last 2) 1
      = Some (Z.of_nat pl - Z.of_nat (trailing_start 1 2))%Z.
Proof.
  apply (days_since_counts_from_window_start rows_rising 2 1 1);
    [reflexivity | reflexivity | simpl; lia].
Defined.

(** C1, on the code. With Highs [2, 3], Lows [1, 2] and [W1 = 2]: the
    maximum of the window of row 1 is at row 1 itself, the backward
    distance is 0, and [Days_Since_High_Last_2_Days] of row 1 is 1; the
    minimum is at row 0, the backward distance is 1, and
    [Days_Since_Low_Last_2_Days] of row 1 is 0. *)
Theorem days_since_high_not_backward_distance :
  (exists out,
     fst (metrics_of rows_rising 2 1) = Ok out /\
     last_max_at High rows_rising (trailing_start 1 2) 1 1 /\
     int_at out (Days_Since_High_Last 2) 1 = Some 1%Z /\
     last_min_at Low rows_rising (trailing_start 1 2) 1 0 /\
     int_at out (Days_Since_Low_Last 2) 1 = Some 0%Z) /\
  ~ days_since_is_backward_distance rows_rising 2 1.
Proof.
  assert (L : last_max_at High rows_rising (trailing_start 1 2) 1 1).
  { split; [cbv; lia|]. eexists. split; [reflexivity|]. split.
    - intros [|[|j]] r' Hj R; [| |lia]; simpl in R;
        injection R as <-; simpl; lra.
    - intros j r' Hj. lia. }
  assert (L' : last_min_at Low rows_rising (trailing_start 1 2) 1 0).
  { split; [cbv; lia|]. eexists. split; [reflexivity|]. split.
    - intros [|[|j]] r' Hj R; [| |lia]; simpl in R;
        injection R as <-; simpl; lra.
    - intros [|[|j]] r' Hj R; [lia| |lia]. simpl in R.
      injection R as <-. simpl. lra. }
  split.
  - eexists. split; [reflexivity|]. repeat split; solve [apply L | apply L' | reflexivity].
  - intros C. specialize (C _ 1 1 eq_refl ltac:(simpl; lia) L).
    discriminate C.
Qed.

(** C6. For the High series [5, 5, 3] with [W1 = 3], the call returns and
    [Days_Since_High_Last_3_Days] of the last row is 1. *)
Theorem tie_break_5_5_3 (rows : list PriceRow) (W2 : Z) :
  map High rows = [5; 5; 3]%Q -> (0 < W2)%Z ->
  exists out,
    fst (metrics_of rows 3 W2) = Ok out /\
    int_at out (Days_Since_High_Last 3) 2 = Some 1%Z.
Proof.
  intros HH H2.
  destruct (metrics_of_run rows 3 W2 eq_refl H2) as (dh & dl & Mh & _ & E).
  exists (metrics_frame rows 3 W2 dh dl). rewrite E. split; [reflexivity|].
  rewrite at_Days_Since_High_Last.
  apply nth_error_of_int with (c := 1) (s := since_high rows 3); [exact Mh|].
  unfold since_high. rewrite fin_col_map, HH. reflexivity.
Qed.

Lemma tie_break_5_5_3_witness :
  map High rows_553 = [5; 5; 3]%Q /\ (0 < 2)%Z /\
  exists out,
    fst (metrics_of rows_553 3 2) = Ok out /\
    int_at out (Days_Since_High_Last 3) 2 = Some 1%Z.
Proof.
  split; [reflexivity|]. split; [reflexivity|].
  apply (tie_break_5_5_3 rows_553 2); reflexivity.
Defined.

(** C2, on the code. With Highs [9, 9, 2] and [W2 = 2], row 0 has two
    following rows; [High_Next_2_Days] of row 0 is 2, the High of row 2
    alone, although the High of row 1 is 9. *)
Theorem forward_high_skips_next_row :
  (exists out,
     fst (metrics_of rows_peak 7 2) = Ok out /\
     float_at out (High_Next 2) 0 = Some (Fin 2) /\
     float_at out "High" 1 = Some (Fin 9)) /\
  ~ forward_extrema_from_next_row rows_peak 7 2.
Proof.
  split.
  - eexists. repeat split; reflexivity.
  - intros C. destruct (C _ 0 eq_refl) as (hi & lo & Eh & _ & [_ Ub] & _);
      [simpl; lia|].
    injection Eh as <-.
    specialize (Ub 1 (mkPriceRow 2 9 9 2 2) ltac:(simpl; lia) eq_refl).
    simpl in Ub. lra.
Qed.

(* ------------------------------------------------------------------ *)
(** ** Percentage deviations *)

Lemma nth_error_map2 {A B C} (f : A -> B -> C) (l1 : list A) (l2 : list B) (i : nat) :
  nth_error (map2 f l1 l2) i =
    match nth_error l1 i, nth_error l2 i with
    | Some a, Some b => Some (f a b)
    | _, _ => None
    end.
Proof.
  revert l2 i. induction l1 as [|a l1 IH]; intros [|b l2] [|i]; simpl; auto.
  - now destruct (nth_error l1 i).
Qed.

Lemma length_map2 {A B C} (f : A -> B -> C) (l1 : list A) (l2 : list B) :
  length (map2 f l1 l2) = Nat.min (length l1) (length l2).
Proof.
  revert l2. induction l1 as [|a l1 IH]; intros [|b l2]; simpl; auto.
Qed.

(** Row [i] of [((Close - x) / x) * 100]. *)
Lemma pct_row (rows : list PriceRow) (x : Series) (i : nat) (r : PriceRow) (e : float) :
  nth_error rows i = Some r -> nth_error x i = Some e ->
  nth_error (pct rows x) i
  = Some (fmul (fdiv (fsub (Fin (Close r)) e) e) (Fin (100 # 1))).
Proof.
  intros R E. unfold pct, Series_mul_scalar, Series_div, Series_sub, fin_col.
  rewrite nth_error_map, !nth_error_map2, nth_error_map, R, E. reflexivity.
Qed.

Lemma pct_cell_nonzero (c e : Q) :
  ~ (e == 0)%Q ->
  exists p, fmul (fdiv (fsub (Fin c) (Fin e)) (Fin e)) (Fin (100 # 1)) = Fin p
            /\ (e * (1 + p / (100 # 1)) == c)%Q.
Proof.
  intros Hne. simpl.
  destruct (Qeq_bool e 0) eqn:Z0; [apply Qeq_bool_iff in Z0; contradiction|].
  eexists. split; [reflexivity|]. field. exact Hne.
Qed.

Lemma pct_cell_zero (c e : Q) :
  (e == 0)%Q ->
  let cell := fmul (fdiv (fsub (Fin c) (Fin e)) (Fin e)) (Fin (100 # 1)) in
  isfinite cell = false /\
  ((c == 0)%Q -> cell = NaN) /\
  (~ (c == 0)%Q -> cell = PInf \/ cell = NInf).
Proof.
  intros He. simpl.
  apply Qeq_bool_iff in He as Hb. rewrite Hb.
  destruct (Qcompare_spec (c - e) 0) as [E|L|G]; simpl.
  - split; [reflexivity|]. split; [reflexivity|]. intros N. exfalso. apply N. lra.
  - split; [reflexivity|]. split; [intros; lra | now right].
  - split; [reflexivity|]. split; [intros; lra | now left].
Qed.

(** In the returned frame, the percentage cell of a row is computed from
    the row's Close and the extremum cell of the same row. *)
Lemma pct_of_extremum (rows : list PriceRow) (W1 W2 : Z) (dh dl : list Z)
      (ext pc : string) (i : nat) (r : PriceRow) (e : float) :
  In (ext, pc) (extremum_fields W1 W2) ->
  nth_error rows i = Some r ->
  float_at (metrics_frame rows W1 W2 dh dl) ext i = Some e ->
  float_at (metrics_frame rows W1 W2 dh dl) pc i
  = Some (fmul (fdiv (fsub (Fin (Close r)) e) e) (Fin (100 # 1))).
Proof.
  intros Hin R E.
  destruct Hin as [P|[P|[P|[P|[]]]]]; injection P as <- <-.
  - rewrite at_High_Last in E. rewrite at_Diff_From_High_Last. now apply pct_row.
  - rewrite at_Low_Last in E. rewrite at_Diff_From_Low_Last. now apply pct_row.
  - rewrite at_High_Next in E. rewrite at_Diff_From_High_Next. now apply pct_row.
  - rewrite at_Low_Next in E. rewrite at_Diff_From_Low_Next. now apply pct_row.
Qed.

(** C7. For all positive [W1], [W2] the call returns a frame in which, for
    each of the four extremum fields and every row: if the extremum [E] is
    defined and non-zero and [C] is the row's Close, the reported
    percentage is a number [p] with [E * (1 + p/100) = C], exactly, in
    rational arithmetic. *)
Theorem percentage_round_trip (rows : list PriceRow) (W1 W2 : Z) :
  (0 < W1)%Z -> (0 < W2)%Z ->
  exists out,
    fst (metrics_of rows W1 W2) = Ok out /\
    forall ext pc i r E,
      In (ext, pc) (extremum_fields W1 W2) ->
      nth_error rows i = Some r ->
      float_at out ext i = Some (Fin E) ->
      ~ (E == 0)%Q ->
      exists p, float_at out pc i = Some (Fin p)
                /\ (E * (1 + p / (100 # 1)) == Close r)%Q.
Proof.
  intros H1 H2.
  destruct (metrics_of_run rows W1 W2 H1 H2) as (dh & dl & _ & _ & Eq).
  exists (metrics_frame rows W1 W2 dh dl). rewrite Eq. split; [reflexivity|].
  intros ext pc i r E Hin R Hext Hne.
  rewrite (pct_of_extremum _ _ _ _ _ _ _ _ _ _ Hin R Hext).
  destruct (pct_cell_nonzero (Close r) E Hne) as (p & -> & Hp). eauto.
Qed.

Lemma percentage_round_trip_witness :
  exists out p,
    fst (metrics_of rows_553 3 2) = Ok out /\
    float_at out (High_Last 3) 2 = Some (Fin 5) /\
    float_at out (Diff_From_High_Last 3) 2 = Some (Fin p) /\
    (5 * (1 + p / (100 # 1)) == 2)%Q.
Proof.
  destruct (percentage_round_trip rows_553 3 2 eq_refl eq_refl) as (out & E & H).
  assert (Hext : float_at out (High_Last 3) 2 = Some (Fin 5))
    by (injection E as <-; reflexivity).
  destruct (H (High_Last 3) (Diff_From_High_Last 3) 2 (mkPriceRow 3 3 3 1 2) 5%Q
              (or_introl eq_refl) eq_refl Hext)
    as (p & Hp & Hq); [intros C; discriminate C|].
  exists out, p. auto.
Defined.

(** C4 as the specification states it fails: with High = 0 and Close = 2
    the call returns normally and [%_Diff_From_High_Last_1_Days] is +inf. *)
Lemma zero_extremum_fails_not :
  ~ zero_extremum_fails rows_zero 1 1.
Proof.
  intros C.
  specialize (C _ (High_Last 1) (Diff_From_High_Last 1) 0 0%Q eq_refl
                (or_introl eq_refl) eq_refl ltac:(reflexivity)).
  discriminate C.
Qed.

(** C4, as amended. For all positive [W1], [W2] the call returns a frame,
    raising nothing, in which, for each of the four extremum fields and
    every row whose extremum is defined and exactly 0, the percentage cell
    is a non-finite float: NaN when the row's Close is 0, an infinity
    otherwise. *)
Theorem zero_extremum_gives_non_finite (rows : list PriceRow) (W1 W2 : Z) :
  (0 < W1)%Z -> (0 < W2)%Z ->
  exists out,
    fst (metrics_of rows W1 W2) = Ok out /\
    forall ext pc i r E,
      In (ext, pc) (extremum_fields W1 W2) ->
      nth_error rows i = Some r ->
      float_at out ext i = Some (Fin E) ->
      (E == 0)%Q ->
      exists cell,
        float_at out pc i = Some cell /\
        isfinite cell = false /\
        ((Close r == 0)%Q -> cell = NaN) /\
        (~ (Close r == 0)%Q -> cell = PInf \/ cell = NInf).
Proof.
  intros H1 H2.
  destruct (metrics_of_run rows W1 W2 H1 H2) as (dh & dl & _ & _ & Eq).
  exists (metrics_frame rows W1 W2 dh dl). rewrite Eq. split; [reflexivity|].
  intros ext pc i r E Hin R Hext He.
  rewrite (pct_of_extremum _ _ _ _ _ _ _ _ _ _ Hin R Hext).
  eexists. split; [reflexivity|]. now apply pct_cell_zero.
Qed.

Lemma zero_extremum_gives_non_finite_witness :
  exists out cell,
    fst (metrics_of rows_zero 1 1) = Ok out /\
    float_at out (Low_Last 1) 0 = Some (Fin 0) /\
    float_at out (Diff_From_Low_Last 1) 0 = Some cell /\
    isfinite cell = false /\
    (cell = PInf \/ cell = NInf).
Proof.
  destruct (zero_extremum_gives_non_finite rows_zero 1 1 eq_refl eq_refl)
    as (out & E & H).
  assert (Hext : float_at out (Low_Last 1) 0 = Some (Fin 0))
    by (injection E as <-; reflexivity).
  destruct (H (Low_Last 1) (Diff_From_Low_Last 1) 0 (mkPriceRow 1 0 0 0 2) 0%Q
              (or_intror (or_introl eq_refl)) eq_refl Hext ltac:(reflexivity))
    as (cell & Hc & Hf & _ & Hinf).
  exists out, cell. repeat split; auto.
  apply Hinf. intros C. discriminate C.
Defined.

(* ------------------------------------------------------------------ *)
(** ** Rows in, rows out *)

Lemma length_pct (rows : list PriceRow) (x : Series) :
  length x = length rows -> length (pct rows x) = length rows.
Proof.
  intros L. unfold pct, Series_mul_scalar, Series_div, Series_sub.
  rewrite length_map, !length_map2, length_fin_col. lia.
Qed.

Lemma length_high_last rows v1 : length (high_last rows v1) = length rows.
Proof.
  unfold high_last, Rolling_max. rewrite length_Rolling_reduce. apply length_fin_col.
Qed.

Lemma length_low_last rows v1 : length (low_last rows v1) = length rows.
Proof.
  unfold low_last, Rolling_min. rewrite length_Rolling_reduce. apply length_fin_col.
Qed.

Lemma length_high_next rows v2 : length (high_next rows v2) = length rows.
Proof.
  unfold high_next, Rolling_max.
  rewrite length_Rolling_reduce. simpl. now rewrite length_shift, length_fin_col.
Qed.

Lemma length_low_next rows v2 : length (low_next rows v2) = length rows.
Proof.
  unfold low_next, Rolling_min.
  rewrite length_Rolling_reduce. simpl. now rewrite length_shift, length_fin_col.
Qed.

Lemma length_since_high rows v1 : length (since_high rows v1) = length rows.
Proof. unfold since_high. rewrite length_Rolling_apply. apply length_fin_col. Qed.

Lemma length_since_low rows v1 : length (since_low rows v1) = length rows.
Proof. unfold since_low. rewrite length_Rolling_apply. apply length_fin_col. Qed.

Lemma metrics_frame_columns (rows : list PriceRow) (v1 v2 : Z) (dh dl : list Z) :
  map of_int dh = since_high rows v1 ->
  map of_int dl = since_low rows v1 ->
  Forall (fun kc => col_len (snd kc) = length rows)
         (metrics_frame rows v1 v2 dh dl).
Proof.
  intros Mh Ml.
  assert (Lh : length dh = length rows)
    by (rewrite <- (length_map of_int dh), Mh; apply length_since_high).
  assert (Ll : length dl = length rows)
    by (rewrite <- (length_map of_int dl), Ml; apply length_since_low).
  unfold metrics_frame, from_rows.
  repeat constructor; cbn [snd col_len];
    rewrite ?length_pct, ?length_map;
    auto using length_high_last, length_low_last, length_high_next,
               length_low_next, length_fin_col.
Qed.

(** C8. For every sequence of price rows and all positive [W1], [W2] the
    call returns a frame with exactly as many rows as its input, every
    column as long as the input, and row [i] of the output carrying the
    Date, Open, High, Low and Close of row [i] of the input: no row is
    dropped or moved, whatever is undefined in its derived fields. *)
Theorem same_rows_same_order (rows : list PriceRow) (W1 W2 : Z) :
  (0 < W1)%Z -> (0 < W2)%Z ->
  exists out,
    fst (metrics_of rows W1 W2) = Ok out /\
    nrows out = length rows /\
    Forall (fun kc => col_len (snd kc) = length rows) out /\
    forall i r,
      nth_error rows i = Some r ->
      date_at out "Date" i = Some (Date r) /\
      float_at out "Open" i = Some (Fin (Open r)) /\
      float_at out "High" i = Some (Fin (High r)) /\
      float_at out "Low" i = Some (Fin (Low r)) /\
      float_at out "Close" i = Some (Fin (Close r)).
Proof.
  intros H1 H2.
  destruct (metrics_of_run rows W1 W2 H1 H2) as (dh & dl & Mh & Ml & E).
  exists (metrics_frame rows W1 W2 dh dl). rewrite E.
  split; [reflexivity|]. split; [apply length_map|].
  split; [now apply metrics_frame_columns|].
  intros i r R.
  unfold date_at, float_at, metrics_frame, from_rows, fin_col. cbn.
  rewrite !nth_error_map, R. cbn. auto.
Qed.

Lemma same_rows_same_order_witness :
  exists out,
    fst (metrics_of rows_553 3 2) = Ok out /\
    nrows out = 3 /\
    float_at out (High_Next 2) 2 = Some NaN /\
    date_at out "Date" 2 = Some 3%Z.
Proof.
  destruct (same_rows_same_order rows_553 3 2 eq_refl eq_refl)
    as (out & E & N & _ & H).
  destruct (H 2 _ eq_refl) as (D & _).
  exists out. repeat split; auto.
  injection E as <-. reflexivity.
Defined.

(* ------------------------------------------------------------------ *)
(** ** The caller's frame is not touched *)

Lemma base_not_derived (W1 W2 : Z) (k : string) :
  In k base_names -> ~ In k (derived_names W1 W2).
Proof.
  unfold base_names, derived_names.
  intros Hb Hd. simpl in Hb.
  repeat (destruct Hb as [<-|Hb]);
    try contradiction;
    repeat (destruct Hd as [Hd|Hd]; [discriminate Hd|]); contradiction.
Qed.

Lemma df_get_set_other (k name : string) (c : Column) (df : DataFrame) :
  k <> name -> df_get k (df_set name c df) = df_get k df.
Proof.
  intros Hk. induction df as [|[k' c'] df IH]; simpl.
  - destruct (String.eqb_spec name k); [congruence | reflexivity].
  - destruct (String.eqb_spec k' name) as [->|N]; simpl.
    + destruct (String.eqb_spec name k); [congruence | reflexivity].
    + destruct (String.eqb_spec k' k); [reflexivity | exact IH].
Qed.

Lemma hoare_ret (I : heap -> Prop) {A} (a : A) (Q : A -> Prop) :
  Q a -> hoare I (ret a) Q.
Proof. intros HQ h Hh. split; [exact Hh|]. intros b [= <-]. exact HQ. Qed.

Lemma hoare_lift (I : heap -> Prop) {A} (r : result A) :
  hoare I (lift r) (fun _ => True).
Proof. intros h Hh. split; [exact Hh | auto]. Qed.

Lemma hoare_bind (I : heap -> Prop) {A B} (m : M A) (k : A -> M B)
      (Q1 : A -> Prop) (Q2 : B -> Prop) :
  hoare I m Q1 -> (forall a, Q1 a -> hoare I (k a) Q2) ->
  hoare I (bind m k) Q2.
Proof.
  intros Hm Hk h Hh. destruct (Hm h Hh) as [I1 R1]. unfold bind.
  destruct (m h) as [[a|e] h'] eqn:E; simpl in *.
  - apply Hk; auto.
  - split; [exact I1|]. intros b Hb. discriminate Hb.
Qed.

Lemma hoare_getitem (I : heap -> Prop) (r : ref) (name : string) :
  hoare I (getitem r name) (fun _ => True).
Proof.
  intros h Hh. unfold getitem.
  destruct (nth_error h r) as [df|]; [destruct (df_get name df)|];
    simpl; auto.
Qed.

Lemma hoare_getseries (I : heap -> Prop) (r : ref) (name : string) :
  hoare I (getseries r name) (fun _ => True).
Proof.
  unfold getseries. eapply hoare_bind; [apply hoare_getitem|].
  intros c _. apply hoare_lift.
Qed.

Section Frame.

Variables (h0 : heap) (df0 : DataFrame) (W1 W2 : Z).

Lemma hoare_setitem (name : string) (c : Column) :
  In name (derived_names W1 W2) ->
  hoare (body_inv h0 df0 W1 W2) (setitem (length h0) name c) (fun _ => True).
Proof.
  intros Hn h (L & Old & out & Eo & Cols). unfold setitem. rewrite Eo. simpl.
  split; [|auto]. split; [|split].
  - now rewrite length_update.
  - intros r Hr. rewrite nth_error_update_other by lia. now apply Old.
  - exists (df_set name c out). split.
    + apply nth_error_update_same. lia.
    + intros k Hk. rewrite df_get_set_other; [now apply Cols|].
      intros ->. contradiction.
Qed.

Lemma body_inv_copy : body_inv h0 df0 W1 W2 (h0 ++ [df0]).
Proof.
  split; [|split].
  - rewrite length_app. simpl. lia.
  - intros r Hr. now apply nth_error_app1.
  - exists df0. split; [apply nth_error_last | reflexivity].
Qed.

End Frame.

Ltac hoare_step :=
  eapply hoare_bind;
  [ first [ apply hoare_getseries
          | apply hoare_lift
          | apply hoare_setitem; unfold derived_names; simpl; tauto ]
  | intros ? _ ].

(** C10. For every store, every frame [df] in it and all [W1], [W2]
    (positive or not), the call leaves every object of the caller's store,
    [df] included, as it was; and when it returns, the returned reference is
    a new object whose columns other than the ten derived ones, among them
    Date, Open, High, Low and Close, are those of [df]. *)
Theorem argument_not_mutated (h : heap) (data : ref) (df : DataFrame) (W1 W2 : Z) :
  nth_error h data = Some df ->
  let res := calculate_metrics data W1 W2 h in
  (forall r, r < length h -> nth_error (snd res) r = nth_error h r) /\
  nth_error (snd res) data = Some df /\
  forall r, fst res = Ok r ->
    r <> data /\
    exists out, nth_error (snd res) r = Some out /\
      (forall k, ~ In k (derived_names W1 W2) -> df_get k out = df_get k df) /\
      (forall k, In k base_names -> df_get k out = df_get k df).
Proof.
  intros Hd res.
  assert (Hlt : data < length h) by (apply nth_error_Some; congruence).
  assert (H : body_inv h df W1 W2 (snd res) /\
              forall r, fst res = Ok r -> r = length h).
  { subst res. unfold calculate_metrics.
    rewrite bind_Ok with (a := length h) (h' := h ++ [df])
      by (unfold DataFrame_copy; now rewrite Hd).
    match goal with
    | |- body_inv _ _ _ _ (snd (?m _)) /\ _ =>
        assert (HB : hoare (body_inv h df W1 W2) m (fun r => r = length h))
    end.
    { repeat hoare_step. now apply hoare_ret. }
    exact (HB _ (body_inv_copy h df W1 W2)). }
  destruct H as [(L & Old & out & Eo & Cols) Ret].
  split; [exact Old|]. split; [rewrite Old by exact Hlt; exact Hd|].
  intros r Hr. apply Ret in Hr. subst r.
  split; [lia|]. exists out. split; [exact Eo|]. split; [exact Cols|].
  intros k Hk. apply Cols. now apply base_not_derived.
Qed.

Lemma argument_not_mutated_witness :
  nth_error [from_rows rows_553] 0 = Some (from_rows rows_553) /\
  let res := calculate_metrics 0 3 2 [from_rows rows_553] in
  (forall r, r < 1 -> nth_error (snd res) r = nth_error [from_rows rows_553] r) /\
  nth_error (snd res) 0 = Some (from_rows rows_553) /\
  forall r, fst res = Ok r ->
    r <> 0 /\
    exists out, nth_error (snd res) r = Some out /\
      (forall k, ~ In k (derived_names 3 2) ->
                 df_get k out = df_get k (from_rows rows_553)) /\
      (forall k, In k base_names -> df_get k out = df_get k (from_rows rows_553)).
Proof.
  split; [reflexivity|].
  apply (argument_not_mutated [from_rows rows_553] 0 (from_rows rows_553) 3 2).
  reflexivity.
Defined.

(* ------------------------------------------------------------------ *)
(** ** The fetched table *)

Lemma take_all_true {A} (m : list bool) (l : list A) :
  length m = length l -> Forall (fun b => b = true) m -> take m l = l.
Proof.
  revert l. induction m as [|b m IH]; intros [|x l] L F; simpl in *;
    try discriminate; auto.
  inversion F; subst. f_equal. apply IH; auto.
Qed.

(** The window of size 2 at a row that has a predecessor. *)
Lemma window_2 {A} (l : list A) (k : nat) (a b : A) :
  nth_error l k = Some a -> nth_error l (S k) = Some b ->
  window_at 2 (S k) l = [a; b].
Proof.
  unfold window_at. replace (S k + 1 - 2) with k by lia.
  replace (S k + 1) with (S (S k)) by lia.
  revert l. induction k as [|k IH]; intros l Ha Hb.
  - destruct l as [|x [|y l]]; simpl in *; try discriminate.
    injection Ha as ->. injection Hb as ->. reflexivity.
  - destruct l as [|x l]; [discriminate|].
    change (skipn k (firstn (S (S k)) l) = [a; b]).
    apply IH; assumption.
Qed.

(** [rolling(window=2)] with its default [min_periods = 2]: NaN on the first
    row, the reduction of the two closes on every other row. *)
Lemma rolling_2_row (f : list Q -> float) (qs : list Q) (k : nat) (a b : Q) :
  nth_error qs k = Some a -> nth_error qs (S k) = Some b ->
  nth_error (Rolling_reduce f (mkRolling (map Fin qs) 2 2)) (S k)
  = Some (f [a; b]).
Proof.
  intros Ha Hb.
  assert (L : S k < length qs) by (apply nth_error_Some; congruence).
  rewrite nth_error_Rolling_reduce by (simpl; now rewrite length_map).
  cbn [obj window min_periods]. cbv zeta.
  rewrite prep_Fin, window_at_map, observations_Fin.
  now rewrite (window_2 qs k a b Ha Hb).
Qed.

Lemma prepare_frame_unfold (prices : list (Z * Q)) :
  prepare_frame prices
  = select ["Date"; "Open"; "High"; "Low"; "Close"]%string
           (tail 14 (dropna (raw_frame prices))).
Proof. reflexivity. Qed.

Lemma nth_error_shift_1 (s : Series) (k : nat) :
  nth_error (shift 1 s) k =
    if k <? length s
    then match k with 0 => Some NaN | S k' => nth_error s k' end
    else None.
Proof.
  unfold shift. change (repeat NaN (Z.to_nat 1) ++ s) with (NaN :: s).
  cbn [Z.leb Z.compare]. rewrite nth_error_firstn.
  destruct (k <? length s); [|reflexivity]. now destruct k.
Qed.

Lemma agg_max_pair (a b : Q) : agg_max [a; b] = Fin (qmax a b).
Proof. reflexivity. Qed.

Lemma agg_min_pair (a b : Q) : agg_min [a; b] = Fin (qmin a b).
Proof. reflexivity. Qed.

Section RawFrame.

Variable prices : list (Z * Q).

Lemma closes_Fin : map (fun p => Fin (snd p)) prices = map Fin (map snd prices).
Proof. now rewrite map_map. Qed.

(** Row [k] of each raw column. *)
Lemma raw_close_row k p :
  nth_error prices k = Some p ->
  nth_error (map (fun p => Fin (snd p)) prices) k = Some (Fin (snd p)).
Proof. intros E. now rewrite nth_error_map, E. Qed.

Lemma raw_open_row k p :
  nth_error prices k = Some p -> S k < length prices ->
  nth_error (shift 1 (map (fun p => Fin (snd p)) prices)) (S k)
  = Some (Fin (snd p)).
Proof.
  intros E L. rewrite nth_error_shift_1, length_map.
  destruct (Nat.ltb_spec (S k) (length prices)); [|lia].
  now apply raw_close_row.
Qed.

Lemma raw_reduce_row (f : list Q -> float) k p p' :
  nth_error prices k = Some p -> nth_error prices (S k) = Some p' ->
  nth_error (Rolling_reduce f (mkRolling (map (fun p => Fin (snd p)) prices) 2 2))
            (S k)
  = Some (f [snd p; snd p']).
Proof.
  intros E E'. rewrite closes_Fin. apply rolling_2_row;
    rewrite nth_error_map; [now rewrite E | now rewrite E'].
Qed.

Lemma raw_reduce_first (f : list Q -> float) :
  0 < length prices ->
  nth_error (Rolling_reduce f (mkRolling (map (fun p => Fin (snd p)) prices) 2 2)) 0
  = Some NaN.
Proof.
  destruct prices as [|p ps]; simpl; [lia | reflexivity].
Qed.

Lemma length_na_mask : length (na_mask prices) = length prices.
Proof.
  unfold na_mask, raw_frame. cbn [fold_left snd notna nrows col_len].
  rewrite !length_map2, !length_map, repeat_length, length_shift.
  unfold Rolling_max, Rolling_min.
  rewrite !length_Rolling_reduce. cbn [obj]. rewrite !length_map. lia.
Qed.

Lemma nth_error_na_mask k :
  k < length prices -> nth_error (na_mask prices) k = Some (negb (k =? 0)).
Proof.
  intros Hk.
  destruct (nth_error prices k) as [p|] eqn:Ep;
    [|apply nth_error_None in Ep; lia].
  unfold na_mask, raw_frame. cbn [fold_left snd notna nrows col_len].
  rewrite !nth_error_map2, !nth_error_map, nth_error_repeat
    by (now rewrite length_map).
  rewrite Ep. cbn [option_map andb negb isnan].
  destruct k as [|k].
  - rewrite nth_error_shift_1, length_map.
    destruct (Nat.ltb_spec 0 (length prices)); [|lia].
    unfold Rolling_max, Rolling_min.
    rewrite !raw_reduce_first by exact Hk. reflexivity.
  - destruct (nth_error prices k) as [p0|] eqn:Ep0;
      [|apply nth_error_None in Ep0; lia].
    rewrite (raw_open_row k p0 Ep0 Hk).
    unfold Rolling_max, Rolling_min.
    rewrite !(raw_reduce_row _ k p0 p Ep0 Ep).
    rewrite agg_max_pair, agg_min_pair. reflexivity.
Qed.

End RawFrame.

Lemma take_drop_first {A} (m : list bool) (l : list A) :
  length m = length l ->
  (forall k, k < length l -> nth_error m k = Some (negb (k =? 0))) ->
  take m l = List.tl l.
Proof.
  intros L H. destruct l as [|x l]; destruct m as [|b m]; try discriminate;
    [reflexivity|].
  simpl in L. injection L as L.
  pose proof (H 0 ltac:(simpl; lia)) as H0. simpl in H0. injection H0 as ->.
  simpl. apply take_all_true; [exact L|].
  apply Forall_forall. intros b Hb. apply In_nth_error in Hb as [k Hk].
  assert (k < length m) by (apply nth_error_Some; congruence).
  specialize (H (S k) ltac:(simpl; lia)). simpl in H. congruence.
Qed.

Lemma dropna_raw_frame (prices : list (Z * Q)) :
  dropna (raw_frame prices)
  = map (fun kc => (fst kc, Column_map_rows (fun A => @List.tl A) (snd kc)))
        (raw_frame prices).
Proof.
  unfold dropna. fold (na_mask prices).
  pose proof (length_na_mask prices) as L.
  pose proof (nth_error_na_mask prices) as H.
  unfold raw_frame. cbn [map fst snd Column_map_rows].
  unfold Rolling_max, Rolling_min.
  rewrite !take_drop_first;
    rewrite ?length_shift, ?length_Rolling_reduce; cbn [obj];
    rewrite ?length_map; auto.
Qed.

Lemma prepare_frame_columns (prices : list (Z * Q)) :
  let close := map (fun p => Fin (snd p)) prices in
  prepare_frame prices = Ok
    [ ("Date"%string, DateCol (last_rows 14 (List.tl (map fst prices))));
      ("Open"%string, FloatCol (last_rows 14 (List.tl (shift 1 close))));
      ("High"%string,
       FloatCol (last_rows 14 (List.tl (Rolling_max (mkRolling close 2 2)))));
      ("Low"%string,
       FloatCol (last_rows 14 (List.tl (Rolling_min (mkRolling close 2 2)))));
      ("Close"%string, FloatCol (last_rows 14 (List.tl close))) ].
Proof.
  intros close. rewrite prepare_frame_unfold, dropna_raw_frame. reflexivity.
Qed.

Lemma nth_error_last_rows_tl {A} (l : list A) (j : nat) :
  nth_error (last_rows 14 (List.tl l)) j
  = nth_error l (S (length l - 1 - 14 + j)).
Proof.
  unfold last_rows. rewrite nth_error_skipn.
  destruct l as [|x l]; simpl.
  - now destruct j.
  - now rewrite Nat.sub_0_r.
Qed.

Lemma length_last_rows_tl {A} (l : list A) :
  length (last_rows 14 (List.tl l)) = Nat.min 14 (length l - 1).
Proof.
  unfold last_rows. rewrite length_skipn.
  destruct l as [|x l]; cbn [List.tl length]; lia.
Qed.

(** Output row [j] is raw row [k + 1], [k = max(0, n - 15) + j], with the
    Close of raw row [k] as its Open. *)
Lemma prepare_frame_rows (prices : list (Z * Q)) :
  exists df,
    prepare_frame prices = Ok df /\
    nrows df = Nat.min 14 (length prices - 1) /\
    forall j, j < nrows df ->
      let k := length prices - 1 - 14 + j in
      exists p0 p1 hi lo,
        nth_error prices k = Some p0 /\
        nth_error prices (S k) = Some p1 /\
        date_at df "Date" j = Some (fst p1) /\
        float_at df "Close" j = Some (Fin (snd p1)) /\
        float_at df "Open" j = Some (Fin (snd p0)) /\
        float_at df "High" j = Some (Fin hi) /\
        is_max_of hi [snd p0; snd p1] /\
        float_at df "Low" j = Some (Fin lo) /\
        is_min_of lo [snd p0; snd p1].
Proof.
  eexists. split; [apply prepare_frame_columns|].
  cbn [nrows col_len]. rewrite length_last_rows_tl, length_map.
  split; [reflexivity|].
  intros j Hj. set (k := length prices - 1 - 14 + j).
  assert (Hk : S k < length prices) by (subst k; lia).
  destruct (nth_error prices k) as [p0|] eqn:E0;
    [|apply nth_error_None in E0; lia].
  destruct (nth_error prices (S k)) as [p1|] eqn:E1;
    [|apply nth_error_None in E1; lia].
  exists p0, p1, (qmax (snd p0) (snd p1)), (qmin (snd p0) (snd p1)).
  unfold date_at, float_at. cbn [df_get String.eqb Ascii.eqb Bool.eqb].
  rewrite !nth_error_last_rows_tl.
  unfold Rolling_max, Rolling_min.
  rewrite length_shift, !length_Rolling_reduce. cbn [obj].
  rewrite !length_map. fold k.
  rewrite (raw_open_row prices k p0 E0 Hk).
  rewrite !(raw_reduce_row prices _ k p0 p1 E0 E1).
  rewrite nth_error_map, E1, (raw_close_row prices (S k) p1 E1).
  repeat split; auto.
  - apply (fold_qmax_is_max [snd p1] (snd p0)).
  - apply (fold_qmax_is_max [snd p1] (snd p0)).
  - apply (fold_qmin_is_min [snd p1] (snd p0)).
  - apply (fold_qmin_is_min [snd p1] (snd p0)).
Qed.

(** C9. In every table that [fetch_crypto_data] returns, whatever the
    clock, the date parser and the endpoint: if the table has a row [j],
    the endpoint answered with a price series, the table holds the last
    [min(14, n-1)] rows of it, and row [j] is raw row [k >= 1] (the first raw
    row is never kept): its Date and Close are those of raw row [k], its
    Open is the Close of raw row [k-1], its High is the maximum and its Low
    the minimum of the Closes of raw rows [k-1] and [k]. *)
Theorem fetched_rows_follow_closes
        (strptime_timestamp : string -> option Z) (now_timestamp : Z)
        (market_chart_range : string -> string -> Z -> Z -> option (list (Z * Q)))
        (crypto_pair start_date : string) (j : nat) :
  let df := fetch_crypto_data strptime_timestamp now_timestamp
                              market_chart_range crypto_pair start_date in
  j < nrows df ->
  exists crypto_id vs_currency from_ts to_ts prices,
    market_chart_range crypto_id vs_currency from_ts to_ts = Some prices /\
    nrows df = Nat.min 14 (length prices - 1) /\
    let k := length prices - nrows df + j in
    1 <= k /\
    exists p0 p1 hi lo,
      nth_error prices (k - 1) = Some p0 /\
      nth_error prices k = Some p1 /\
      date_at df "Date" j = Some (fst p1) /\
      float_at df "Close" j = Some (Fin (snd p1)) /\
      float_at df "Open" j = Some (Fin (snd p0)) /\
      float_at df "High" j = Some (Fin hi) /\
      is_max_of hi [snd p0; snd p1] /\
      float_at df "Low" j = Some (Fin lo) /\
      is_min_of lo [snd p0; snd p1].
Proof.
  intros df. subst df. unfold fetch_crypto_data. intros Hj.
  destruct (split_slash (lower crypto_pair)) as [|crypto_id [|vs_currency [|? ?]]];
    try (simpl in Hj; lia).
  destruct (strptime_timestamp start_date) as [start_date_ts|];
    [|simpl in Hj; lia].
  match type of Hj with
  | context [market_chart_range crypto_id vs_currency ?a ?b] =>
      destruct (market_chart_range crypto_id vs_currency a b) as [prices|] eqn:G;
      [exists crypto_id, vs_currency, a, b, prices | simpl in Hj; lia]
  end.
  destruct (prepare_frame_rows prices) as (df & E & N & Rows).
  rewrite E in *.
  split; [exact G|]. split; [exact N|].
  destruct (Rows j Hj) as (p0 & p1 & hi & lo & E0 & E1 & R).
  assert (K : length prices - nrows df + j = S (length prices - 1 - 14 + j))
    by lia.
  cbv zeta. rewrite K. split; [lia|].
  exists p0, p1, hi, lo.
  replace (S (length prices - 1 - 14 + j) - 1)
    with (length prices - 1 - 14 + j) by lia.
  auto.
Qed.

Lemma fetched_rows_follow_closes_witness :
  0 < nrows fetch_1921 /\
  exists crypto_id vs_currency from_ts to_ts prices,
    endpoint_1921 crypto_id vs_currency from_ts to_ts = Some prices /\
    nrows fetch_1921 = Nat.min 14 (length prices - 1) /\
    let k := length prices - nrows fetch_1921 + 0 in
    1 <= k /\
    exists p0 p1 hi lo,
      nth_error prices (k - 1) = Some p0 /\
      nth_error prices k = Some p1 /\
      date_at fetch_1921 "Date" 0 = Some (fst p1) /\
      float_at fetch_1921 "Close" 0 = Some (Fin (snd p1)) /\
      float_at fetch_1921 "Open" 0 = Some (Fin (snd p0)) /\
      float_at fetch_1921 "High" 0 = Some (Fin hi) /\
      is_max_of hi [snd p0; snd p1] /\
      float_at fetch_1921 "Low" 0 = Some (Fin lo) /\
      is_min_of lo [snd p0; snd p1].
Proof.
  split; [vm_compute; lia|].
  apply (fetched_rows_follow_closes
           epoch 1209600%Z endpoint_1921 "Bitcoin/USD" "2023-01-01" 0).
  vm_compute. lia.
Defined.

(* ================================================================== *)
(** * Further properties of the code *)

(* ------------------------------------------------------------------ *)
(** ** [fetch_crypto_data]: what comes back *)

Lemma lower_ascii_slash (c : ascii) :
  Ascii.eqb (lower_ascii c) "/" = Ascii.eqb c "/".
Proof.
  destruct c as [[] [] [] [] [] [] [] []]; reflexivity.
Qed.

Lemma lower_ascii_idem (c : ascii) : lower_ascii (lower_ascii c) = lower_ascii c.
Proof.
  destruct c as [[] [] [] [] [] [] [] []]; reflexivity.
Qed.

Lemma lower_idem (s : string) : lower (lower s) = lower s.
Proof.
  induction s as [|c s IH]; simpl; [reflexivity|].
  now rewrite lower_ascii_idem, IH.
Qed.

Lemma count_slash_lower (s : string) : count_slash (lower s) = count_slash s.
Proof.
  induction s as [|c s IH]; simpl; [reflexivity|].
  now rewrite lower_ascii_slash, IH.
Qed.

(** [split('/')] gives one part more than there are slashes. *)
Lemma length_split_slash (s : string) :
  length (split_slash s) = S (count_slash s).
Proof.
  induction s as [|c s IH]; simpl; [reflexivity|].
  destruct (Ascii.eqb c "/"); simpl; [now rewrite IH|].
  destruct (split_slash s) as [|w ws]; [discriminate | exact IH].
Qed.

Section FetchFacts.

Variable strptime_timestamp : string -> option Z.
Variable now_timestamp : Z.
Variable market_chart_range :
  string -> string -> Z -> Z -> option (list (Z * Q)).
Variables crypto_pair start_date : string.

(** The two ways out of [fetch_crypto_data]: the empty frame of the
    [except] branches, or the frame prepared from the prices that the
    endpoint gave for a range that starts at most 14 days before now. *)
Lemma fetch_cases :
  let df := fetch_crypto_data strptime_timestamp now_timestamp
                              market_chart_range crypto_pair start_date in
  (df = [] /\
   (count_slash crypto_pair <> 1
    \/ strptime_timestamp start_date = None
    \/ exists crypto_id vs_currency from_ts,
         (now_timestamp - 1209600 <= from_ts)%Z /\
         market_chart_range crypto_id vs_currency from_ts now_timestamp = None))
  \/
  exists crypto_id vs_currency start_date_ts prices,
    split_slash (lower crypto_pair) = [crypto_id; vs_currency] /\
    strptime_timestamp start_date = Some start_date_ts /\
    market_chart_range crypto_id vs_currency
      (Z.max start_date_ts (now_timestamp - 1209600)) now_timestamp
      = Some prices /\
    prepare_frame prices = Ok df.
Proof.
  intros df. subst df. unfold fetch_crypto_data.
  pose proof (length_split_slash (lower crypto_pair)) as L.
  rewrite count_slash_lower in L.
  destruct (split_slash (lower crypto_pair))
    as [|crypto_id [|vs_currency [|? ?]]]; simpl in L;
    try (left; split; [reflexivity | left; lia]).
  destruct (strptime_timestamp start_date) as [start_date_ts|];
    [|left; split; [reflexivity | right; left; reflexivity]].
  assert (F : (if (now_timestamp - start_date_ts >? 14 * 86400)%Z
               then (now_timestamp - 14 * 86400)%Z else start_date_ts)
              = Z.max start_date_ts (now_timestamp - 1209600)).
  { destruct (Z.gtb_spec (now_timestamp - start_date_ts) (14 * 86400)); lia. }
  rewrite F.
  destruct (market_chart_range crypto_id vs_currency
              (Z.max start_date_ts (now_timestamp - 1209600)) now_timestamp)
    as [prices|] eqn:G.
  - right. exists crypto_id, vs_currency, start_date_ts, prices.
    split; [reflexivity|]. split; [reflexivity|]. split; [exact G|].
    destruct (prepare_frame_rows prices) as (df & E & _). now rewrite E.
  - left. split; [reflexivity|]. right; right.
    exists crypto_id, vs_currency,
      (Z.max start_date_ts (now_timestamp - 1209600)).
    split; [lia | exact G].
Qed.

End FetchFacts.

Lemma map_last_rows {A B} (f : A -> B) (n : nat) (l : list A) :
  map f (last_rows n l) = last_rows n (map f l).
Proof. unfold last_rows. now rewrite skipn_map, length_map. Qed.

Lemma nth_error_tl {A} (l : list A) (k : nat) :
  nth_error (List.tl l) k = nth_error l (S k).
Proof. destruct l; [now destruct k | reflexivity]. Qed.

Lemma nth_error_pairs (prices : list (Z * Q)) (k : nat) :
  nth_error (map2 price_row prices (List.tl prices)) k =
    match nth_error prices k, nth_error prices (S k) with
    | Some p0, Some p1 => Some (price_row p0 p1)
    | _, _ => None
    end.
Proof. now rewrite nth_error_map2, nth_error_tl. Qed.

Lemma nth_error_before {A} (l : list A) (k : nat) (x : A) :
  nth_error l (S k) = Some x -> exists y, nth_error l k = Some y.
Proof.
  intros E. destruct (nth_error l k) as [y|] eqn:Ek; [eauto|].
  apply nth_error_None in Ek.
  assert (S k < length l) by (apply nth_error_Some; congruence). lia.
Qed.

(** Each raw column without its first row, as a column of the row pairs. *)
Lemma raw_columns_of_pairs (prices : list (Z * Q)) :
  let close := map (fun p => Fin (snd p)) prices in
  let pairs := map2 price_row prices (List.tl prices) in
  List.tl (map fst prices) = map Date pairs /\
  List.tl (shift 1 close) = fin_col Open pairs /\
  List.tl (Rolling_max (mkRolling close 2 2)) = fin_col High pairs /\
  List.tl (Rolling_min (mkRolling close 2 2)) = fin_col Low pairs /\
  List.tl close = fin_col Close pairs.
Proof.
  intros close pairs. subst close pairs. unfold fin_col.
  repeat split; apply nth_error_ext; intros k;
    rewrite nth_error_tl, (nth_error_map _ k (map2 _ _ _)), nth_error_pairs.
  - rewrite nth_error_map.
    destruct (nth_error prices (S k)) as [p1|] eqn:E1;
      [destruct (nth_error_before _ _ _ E1) as [p0 ->]; reflexivity|].
    now destruct (nth_error prices k).
  - rewrite nth_error_shift_1, length_map.
    destruct (nth_error prices (S k)) as [p1|] eqn:E1.
    + destruct (nth_error_before _ _ _ E1) as [p0 E0]. rewrite E0.
      assert (S k < length prices) by (apply nth_error_Some; congruence).
      destruct (Nat.ltb_spec (S k) (length prices)); [|lia].
      now rewrite nth_error_map, E0.
    + apply nth_error_None in E1.
      destruct (Nat.ltb_spec (S k) (length prices)); [lia|].
      now destruct (nth_error prices k).
  - unfold Rolling_max.
    destruct (nth_error prices (S k)) as [p1|] eqn:E1.
    + destruct (nth_error_before _ _ _ E1) as [p0 E0]. rewrite E0.
      now rewrite (raw_reduce_row prices _ k p0 p1 E0 E1).
    + destruct (nth_error prices k);
        apply nth_error_None; rewrite length_Rolling_reduce; cbn [obj];
        rewrite length_map; now apply nth_error_None.
  - unfold Rolling_min.
    destruct (nth_error prices (S k)) as [p1|] eqn:E1.
    + destruct (nth_error_before _ _ _ E1) as [p0 E0]. rewrite E0.
      now rewrite (raw_reduce_row prices _ k p0 p1 E0 E1).
    + destruct (nth_error prices k);
        apply nth_error_None; rewrite length_Rolling_reduce; cbn [obj];
        rewrite length_map; now apply nth_error_None.
  - rewrite nth_error_map.
    destruct (nth_error prices (S k)) as [p1|] eqn:E1;
      [destruct (nth_error_before _ _ _ E1) as [p0 ->]; reflexivity|].
    now destruct (nth_error prices k).
Qed.

(** The prepared frame is the frame of the last 14 row pairs. *)
Lemma prepare_frame_price_rows (prices : list (Z * Q)) :
  prepare_frame prices = Ok (from_rows (price_rows prices)).
Proof.
  rewrite prepare_frame_columns.
  destruct (raw_columns_of_pairs prices) as (D & O & H & L & C).
  unfold from_rows, price_rows, fin_col in *.
  rewrite !map_last_rows, <- D, <- O, <- H, <- L, <- C. reflexivity.
Qed.

Lemma length_price_rows (prices : list (Z * Q)) :
  length (price_rows prices) = Nat.min 14 (length prices - 1).
Proof.
  unfold price_rows, last_rows.
  rewrite length_skipn, length_map2.
  destruct prices as [|p ps]; cbn [List.tl length]; lia.
Qed.

Lemma In_price_rows (prices : list (Z * Q)) (r : PriceRow) :
  In r (price_rows prices) ->
  exists k p0 p1,
    nth_error prices k = Some p0 /\ nth_error prices (S k) = Some p1 /\
    r = price_row p0 p1.
Proof.
  unfold price_rows, last_rows. intros H.
  apply In_nth_error in H as [j Hj]. rewrite nth_error_skipn in Hj.
  rewrite nth_error_pairs in Hj.
  match type of Hj with
  | context [nth_error prices ?k] => exists k
  end.
  destruct (nth_error prices _) as [p0|]; [|discriminate].
  destruct (nth_error prices (S _)) as [p1|]; [|discriminate].
  injection Hj as <-. eauto.
Qed.


Lemma nrows_from_rows (rows : list PriceRow) : nrows (from_rows rows) = length rows.
Proof. apply length_map. Qed.

Lemma from_rows_cells (rows : list PriceRow) (j : nat) (r : PriceRow) :
  nth_error rows j = Some r ->
  date_at (from_rows rows) "Date" j = Some (Date r) /\
  float_at (from_rows rows) "Open" j = Some (Fin (Open r)) /\
  float_at (from_rows rows) "High" j = Some (Fin (High r)) /\
  float_at (from_rows rows) "Low" j = Some (Fin (Low r)) /\
  float_at (from_rows rows) "Close" j = Some (Fin (Close r)).
Proof.
  intros R. unfold date_at, float_at, from_rows, fin_col. cbn.
  rewrite !nth_error_map, R. cbn. auto.
Qed.

Section FetchedTable.

Variable strptime_timestamp : string -> option Z.
Variable now_timestamp : Z.
Variable market_chart_range :
  string -> string -> Z -> Z -> option (list (Z * Q)).
Variables crypto_pair start_date : string.

Let df := fetch_crypto_data strptime_timestamp now_timestamp
                            market_chart_range crypto_pair start_date.

Lemma fetch_rows :
  df = [] \/
  exists crypto_id vs_currency from_ts prices,
    market_chart_range crypto_id vs_currency from_ts now_timestamp
      = Some prices /\
    df = from_rows (price_rows prices).
Proof.
  destruct (fetch_cases strptime_timestamp now_timestamp market_chart_range
                        crypto_pair start_date)
    as [[E _]|(id & vs & ts & prices & _ & _ & G & P)]; [now left|].
  right. exists id, vs, (Z.max ts (now_timestamp - 1209600)), prices.
  split; [exact G|].
  rewrite prepare_frame_price_rows in P. now injection P.
Qed.

(** X1. A pair that does not hold exactly one slash gives the empty frame,
    whatever the date and whatever the endpoint would answer. *)
Theorem fetch_pair_needs_one_slash :
  count_slash crypto_pair <> 1 -> df = [].
Proof.
  intros N.
  destruct (fetch_cases strptime_timestamp now_timestamp market_chart_range
                        crypto_pair start_date)
    as [[E _]|(id & vs & ts & prices & S & _)]; [exact E|].
  pose proof (length_split_slash (lower crypto_pair)) as L.
  rewrite S, count_slash_lower in L. simpl in L. lia.
Qed.

(** X2. The returned frame is either the empty frame [pd.DataFrame()] or a
    frame of exactly the columns Date, Open, High, Low, Close, in this
    order, with the same number of rows, at most 14, every price a finite
    number. *)
Theorem fetched_table_shape :
  df = [] \/ exists rows, df = from_rows rows /\ length rows <= 14.
Proof.
  destruct fetch_rows as [E|(id & vs & ts & prices & _ & E)]; [now left|].
  right. exists (price_rows prices). split; [exact E|].
  rewrite length_price_rows. lia.
Qed.

(** X4. In every row of the returned table, Low <= Open <= High and
    Low <= Close <= High. *)
Theorem fetched_rows_ordered (j : nat) :
  j < nrows df ->
  exists o h l c,
    float_at df "Open" j = Some (Fin o) /\
    float_at df "High" j = Some (Fin h) /\
    float_at df "Low" j = Some (Fin l) /\
    float_at df "Close" j = Some (Fin c) /\
    (l <= o)%Q /\ (o <= h)%Q /\ (l <= c)%Q /\ (c <= h)%Q.
Proof.
  destruct fetch_rows as [E|(id & vs & ts & prices & _ & E)]; rewrite E.
  - simpl. lia.
  - rewrite nrows_from_rows. intros Hj.
    destruct (nth_error (price_rows prices) j) as [r|] eqn:R;
      [|apply nth_error_None in R; lia].
    destruct (from_rows_cells _ _ _ R) as (_ & O & H & L & C).
    exists (Open r), (High r), (Low r), (Close r).
    repeat (split; [assumption|]).
    apply nth_error_In in R. apply In_price_rows in R as (k & p0 & p1 & _ & _ & ->).
    unfold price_row; simpl.
    destruct (qmax_cases (snd p0) (snd p1)) as [[-> A]|[-> A]];
      destruct (qmin_cases (snd p0) (snd p1)) as [[-> B]|[-> B]];
      repeat split; lra.
Qed.


End FetchedTable.

(** X3. The answer depends on the endpoint only through ranges that end now
    and start at most 14 days (1209600 s) before now: two endpoints that
    agree on those ranges give the same table. *)
Theorem fetch_looks_back_14_days
        (strptime_timestamp : string -> option Z) (now_timestamp : Z)
        (endpoint1 endpoint2 : string -> string -> Z -> Z -> option (list (Z * Q)))
        (crypto_pair start_date : string) :
  (forall crypto_id vs_currency from_ts,
      (now_timestamp - 1209600 <= from_ts)%Z ->
      endpoint1 crypto_id vs_currency from_ts now_timestamp
      = endpoint2 crypto_id vs_currency from_ts now_timestamp) ->
  fetch_crypto_data strptime_timestamp now_timestamp endpoint1
                    crypto_pair start_date
  = fetch_crypto_data strptime_timestamp now_timestamp endpoint2
                      crypto_pair start_date.
Proof.
  intros H. unfold fetch_crypto_data.
  destruct (split_slash (lower crypto_pair))
    as [|crypto_id [|vs_currency [|? ?]]]; try reflexivity.
  destruct (strptime_timestamp start_date) as [start_date_ts|]; [|reflexivity].
  rewrite H; [reflexivity|].
  destruct (Z.gtb_spec (now_timestamp - start_date_ts) (14 * 86400)); lia.
Qed.

Lemma fetch_pair_needs_one_slash_witness :
  count_slash "bitcoin" <> 1 /\
  fetch_crypto_data epoch 1209600%Z endpoint_1921 "bitcoin" "2023-01-01" = [].
Proof.
  split; [simpl; lia|].
  apply (fetch_pair_needs_one_slash epoch 1209600%Z endpoint_1921
                                    "bitcoin" "2023-01-01").
  simpl; lia.
Defined.

Lemma fetched_rows_ordered_witness :
  0 < nrows fetch_1921 /\
  exists o h l c,
    float_at fetch_1921 "Open" 0 = Some (Fin o) /\
    float_at fetch_1921 "High" 0 = Some (Fin h) /\
    float_at fetch_1921 "Low" 0 = Some (Fin l) /\
    float_at fetch_1921 "Close" 0 = Some (Fin c) /\
    (l <= o)%Q /\ (o <= h)%Q /\ (l <= c)%Q /\ (c <= h)%Q.
Proof.
  split; [vm_compute; lia|].
  apply (fetched_rows_ordered epoch 1209600%Z endpoint_1921
                              "Bitcoin/USD" "2023-01-01" 0).
  vm_compute; lia.
Defined.


Lemma fetch_looks_back_14_days_witness :
  (forall crypto_id vs_currency from_ts,
      (1209600 - 1209600 <= from_ts)%Z ->
      endpoint_1921 crypto_id vs_currency from_ts 1209600%Z
      = endpoint_recent crypto_id vs_currency from_ts 1209600%Z) /\
  fetch_crypto_data epoch 1209600%Z endpoint_1921 "Bitcoin/USD" "2023-01-01"
  = fetch_crypto_data epoch 1209600%Z endpoint_recent "Bitcoin/USD" "2023-01-01".
Proof.
  assert (H : forall crypto_id vs_currency from_ts,
             (1209600 - 1209600 <= from_ts)%Z ->
             endpoint_1921 crypto_id vs_currency from_ts 1209600%Z
             = endpoint_recent crypto_id vs_currency from_ts 1209600%Z).
  { intros id vs a Ha. unfold endpoint_1921, endpoint_recent.
    destruct (Z.ltb_spec a 0); [lia | reflexivity]. }
  split; [exact H|].
  apply (fetch_looks_back_14_days epoch 1209600%Z endpoint_1921 endpoint_recent
                                  "Bitcoin/USD" "2023-01-01" H).
Defined.

(* ------------------------------------------------------------------ *)
(** ** [calculate_metrics]: when it raises *)

Lemma bind_Raise {A B} (m : M A) (k : A -> M B) (h h' : heap) (e : exn) :
  m h = (Raise e, h') -> bind m k h = (Raise e, h').
Proof. intros E. unfold bind. now rewrite E. Qed.

Lemma rolling_not_positive (s : Series) (w : Z) :
  (w <= 0)%Z -> exists msg, rolling s w (Some 1%Z) = Raise (ValueError msg).
Proof.
  intros Hw. unfold rolling.
  destruct (Z.ltb_spec w 0); [eauto|].
  destruct (Z.ltb_spec 1 0); [lia|].
  destruct (Z.ltb_spec w 1); [eauto | lia].
Qed.

(** X6. On a frame without a High column, the empty frame of a failed fetch
    among them, the call raises KeyError('High'), whatever the windows. *)
Theorem missing_High_raises_KeyError
        (h : heap) (data : ref) (df : DataFrame) (W1 W2 : Z) :
  nth_error h data = Some df ->
  df_get "High" df = None ->
  fst (calculate_metrics data W1 W2 h) = Raise (KeyError "High").
Proof.
  intros Hd Hk. unfold calculate_metrics.
  rewrite bind_Ok with (a := length h) (h' := h ++ [df])
    by (unfold DataFrame_copy; now rewrite Hd).
  rewrite bind_Raise with (e := KeyError "High") (h' := h ++ [df]);
    [reflexivity|].
  unfold getseries.
  apply bind_Raise. now rewrite getitem_last, Hk.
Qed.

Lemma missing_High_raises_KeyError_witness :
  nth_error [ ([] : DataFrame) ] 0 = Some [] /\
  df_get "High" [] = None /\
  fst (calculate_metrics 0 7 5 [ [] ]) = Raise (KeyError "High").
Proof.
  split; [reflexivity|]. split; [reflexivity|].
  apply (missing_High_raises_KeyError [ [] ] 0 [] 7 5); reflexivity.
Defined.

Lemma calculate_metrics_not_positive
      (rows : list PriceRow) (W1 W2 : Z) (h : heap) (data : ref) :
  nth_error h data = Some (from_rows rows) ->
  (W1 <= 0)%Z \/ (W2 <= 0)%Z ->
  exists msg h', calculate_metrics data W1 W2 h = (Raise (ValueError msg), h').
Proof.
  intros Hd Hw.
  assert (Copy : DataFrame_copy data h = (Ok (length h), h ++ [from_rows rows]))
    by (unfold DataFrame_copy; now rewrite Hd).
  destruct (Z_lt_le_dec 0 W1) as [H1|H1].
  { assert (H2 : (W2 <= 0)%Z) by lia.
    destruct (rolling_not_positive
                (shift (- W2) (fin_col High rows)) W2 H2) as [msg R].
    destruct (since_high_integral rows W1 H1) as (dh & Eh & _).
    destruct (since_low_integral rows W1 H1) as (dl & El & _).
    unfold since_high in Eh. unfold since_low in El.
    exists msg. eexists. unfold calculate_metrics.
    rewrite (bind_Ok _ _ _ _ _ Copy).
    unfold from_rows.
    repeat step.
    apply bind_Raise. unfold lift. rewrite R. reflexivity. }
  destruct (rolling_not_positive (fin_col High rows) W1 H1) as [msg R].
  exists msg. eexists. unfold calculate_metrics.
  rewrite (bind_Ok _ _ _ _ _ Copy).
  unfold from_rows.
  repeat step.
  apply bind_Raise. unfold lift. rewrite R. reflexivity.
Qed.

(** X7. On a frame of price rows the call returns normally exactly when both
    windows are positive; with a window that is zero or negative it raises
    a ValueError (pandas refuses [min_periods=1] on such a window). *)
Theorem returns_iff_windows_positive
        (rows : list PriceRow) (W1 W2 : Z) (h : heap) (data : ref) :
  nth_error h data = Some (from_rows rows) ->
  ((0 < W1)%Z /\ (0 < W2)%Z /\
   exists r, fst (calculate_metrics data W1 W2 h) = Ok r)
  \/
  (((W1 <= 0)%Z \/ (W2 <= 0)%Z) /\
   exists msg, fst (calculate_metrics data W1 W2 h) = Raise (ValueError msg)).
Proof.
  intros Hd.
  destruct (Z_lt_le_dec 0 W1) as [H1|H1]; [destruct (Z_lt_le_dec 0 W2) as [H2|H2]|].
  - left. split; [exact H1|]. split; [exact H2|].
    destruct (calculate_metrics_run rows W1 W2 H1 H2 h data Hd)
      as (dh & dl & _ & _ & E).
    rewrite E. simpl. eauto.
  - right. split; [now right|].
    destruct (calculate_metrics_not_positive rows W1 W2 h data Hd)
      as (msg & h' & E); [now right|]. rewrite E. simpl. eauto.
  - right. split; [now left|].
    destruct (calculate_metrics_not_positive rows W1 W2 h data Hd)
      as (msg & h' & E); [now left|]. rewrite E. simpl. eauto.
Qed.

Lemma returns_iff_windows_positive_witness :
  nth_error [from_rows rows_553] 0 = Some (from_rows rows_553) /\
  (((0 < 7)%Z /\ (0 < 0)%Z /\
    exists r, fst (calculate_metrics 0 7 0 [from_rows rows_553]) = Ok r)
   \/
   (((7 <= 0)%Z \/ (0 <= 0)%Z) /\
    exists msg,
      fst (calculate_metrics 0 7 0 [from_rows rows_553])
      = Raise (ValueError msg))).
Proof.
  split; [reflexivity|].
  apply (returns_iff_windows_positive rows_553 7 0 [from_rows rows_553] 0).
  reflexivity.
Defined.

(* ------------------------------------------------------------------ *)
(** ** [calculate_metrics]: bounds and order of the derived columns *)

(** X8. Both [Days_Since] cells of row [i] lie between 0 and
    [min(i, W1 - 1)]. *)
Theorem days_since_bounds (rows : list PriceRow) (W1 W2 : Z) (i : nat) :
  (0 < W1)%Z -> (0 < W2)%Z -> i < length rows ->
  exists out dh dl,
    fst (metrics_of rows W1 W2) = Ok out /\
    int_at out (Days_Since_High_Last W1) i = Some dh /\
    int_at out (Days_Since_Low_Last W1) i = Some dl /\
    (0 <= dh <= Z.min (Z.of_nat i) (W1 - 1))%Z /\
    (0 <= dl <= Z.min (Z.of_nat i) (W1 - 1))%Z.
Proof.
  intros H1 H2 Hi.
  destruct (metrics_of_run rows W1 W2 H1 H2) as (dh & dl & Mh & Ml & E).
  destruct (since_high_row rows W1 i H1 Hi) as (ph & Eh & [Bh _]).
  destruct (since_low_row rows W1 i H1 Hi) as (pl & El & [Bl _]).
  exists (metrics_frame rows W1 W2 dh dl),
    (Z.of_nat (ph - trailing_start i W1)), (Z.of_nat (pl - trailing_start i W1)).
  rewrite E, at_Days_Since_High_Last, at_Days_Since_Low_Last.
  rewrite (nth_error_of_int _ _ _ _ Mh Eh), (nth_error_of_int _ _ _ _ Ml El).
  rewrite trailing_start_nat in * by exact H1.
  repeat split; try reflexivity; lia.
Qed.

Lemma days_since_bounds_witness :
  exists out dh dl,
    fst (metrics_of rows_553 3 2) = Ok out /\
    int_at out (Days_Since_High_Last 3) 2 = Some dh /\
    int_at out (Days_Since_Low_Last 3) 2 = Some dl /\
    (0 <= dh <= Z.min (Z.of_nat 2) (3 - 1))%Z /\
    (0 <= dl <= Z.min (Z.of_nat 2) (3 - 1))%Z.
Proof.
  apply (days_since_bounds rows_553 3 2 2);
    [reflexivity | reflexivity | simpl; lia].
Defined.

(** X9. The trailing extrema bound the current row: [High_Last] of a row is
    at least its High, [Low_Last] at most its Low. *)
Theorem trailing_extrema_bound_current_row
        (rows : list PriceRow) (W1 W2 : Z) (i : nat) (r : PriceRow) :
  (0 < W1)%Z -> (0 < W2)%Z -> nth_error rows i = Some r ->
  exists out hi lo,
    fst (metrics_of rows W1 W2) = Ok out /\
    float_at out (High_Last W1) i = Some (Fin hi) /\
    float_at out (Low_Last W1) i = Some (Fin lo) /\
    (High r <= hi)%Q /\ (lo <= Low r)%Q.
Proof.
  intros H1 H2 R.
  assert (Hi : i < length rows) by (apply nth_error_Some; congruence).
  destruct (metrics_of_run rows W1 W2 H1 H2) as (dh & dl & _ & _ & E).
  destruct (high_last_row rows W1 i H1 Hi) as (hi & Ehi & [_ Ub]).
  destruct (low_last_row rows W1 i H1 Hi) as (lo & Elo & [_ Lb]).
  exists (metrics_frame rows W1 W2 dh dl), hi, lo.
  rewrite E, at_High_Last, at_Low_Last.
  rewrite trailing_start_nat in * by exact H1.
  repeat split; auto.
  - apply (Ub i r); [lia | exact R].
  - apply (Lb i r); [lia | exact R].
Qed.

Lemma trailing_extrema_bound_current_row_witness :
  exists out hi lo,
    fst (metrics_of rows_553 3 2) = Ok out /\
    float_at out (High_Last 3) 2 = Some (Fin hi) /\
    float_at out (Low_Last 3) 2 = Some (Fin lo) /\
    (3 <= hi)%Q /\ (lo <= 1)%Q.
Proof.
  apply (trailing_extrema_bound_current_row rows_553 3 2 2 (mkPriceRow 3 3 3 1 2));
    reflexivity.
Defined.

(** X10. A longer look-back never lowers [High_Last] and never raises
    [Low_Last]: with [W1 <= W1'], at every row the extrema for [W1'] bound
    those for [W1]. *)
Theorem longer_lookback_widens_extrema
        (rows : list PriceRow) (W1 W1' W2 : Z) (i : nat) :
  (0 < W1)%Z -> (W1 <= W1')%Z -> (0 < W2)%Z -> i < length rows ->
  exists out out' hi lo hi' lo',
    fst (metrics_of rows W1 W2) = Ok out /\
    fst (metrics_of rows W1' W2) = Ok out' /\
    float_at out (High_Last W1) i = Some (Fin hi) /\
    float_at out (Low_Last W1) i = Some (Fin lo) /\
    float_at out' (High_Last W1') i = Some (Fin hi') /\
    float_at out' (Low_Last W1') i = Some (Fin lo') /\
    (hi <= hi')%Q /\ (lo' <= lo)%Q.
Proof.
  intros H1 H11 H2 Hi.
  assert (H1' : (0 < W1')%Z) by lia.
  destruct (metrics_of_run rows W1 W2 H1 H2) as (dh & dl & _ & _ & E).
  destruct (metrics_of_run rows W1' W2 H1' H2) as (dh' & dl' & _ & _ & E').
  destruct (high_last_row rows W1 i H1 Hi) as (hi & Ehi & [(j & r & Hj & R & <-) _]).
  destruct (low_last_row rows W1 i H1 Hi) as (lo & Elo & [(k & s & Hk & S & <-) _]).
  destruct (high_last_row rows W1' i H1' Hi) as (hi' & Ehi' & [_ Ub]).
  destruct (low_last_row rows W1' i H1' Hi) as (lo' & Elo' & [_ Lb]).
  exists (metrics_frame rows W1 W2 dh dl), (metrics_frame rows W1' W2 dh' dl'),
    (High r), (Low s), hi', lo'.
  rewrite E, E', !at_High_Last, !at_Low_Last.
  rewrite trailing_start_nat in * by assumption.
  repeat split; auto.
  - apply (Ub j r); [lia | exact R].
  - apply (Lb k s); [lia | exact S].
Qed.

Lemma longer_lookback_widens_extrema_witness :
  exists out out' hi lo hi' lo',
    fst (metrics_of rows_peak 1 2) = Ok out /\
    fst (metrics_of rows_peak 3 2) = Ok out' /\
    float_at out (High_Last 1) 2 = Some (Fin hi) /\
    float_at out (Low_Last 1) 2 = Some (Fin lo) /\
    float_at out' (High_Last 3) 2 = Some (Fin hi') /\
    float_at out' (Low_Last 3) 2 = Some (Fin lo') /\
    (hi <= hi')%Q /\ (lo' <= lo)%Q.
Proof.
  apply (longer_lookback_widens_extrema rows_peak 1 3 2 2);
    [reflexivity | lia | reflexivity | simpl; lia].
Defined.

(** X11. With a look-back of one row the trailing columns repeat the row
    itself: [High_Last_1_Days] is the High, [Low_Last_1_Days] the Low, and
    both [Days_Since] cells are 0. *)
Theorem lookback_of_one_row
        (rows : list PriceRow) (W2 : Z) (i : nat) (r : PriceRow) :
  (0 < W2)%Z -> nth_error rows i = Some r ->
  exists out,
    fst (metrics_of rows 1 W2) = Ok out /\
    float_at out (High_Last 1) i = Some (Fin (High r)) /\
    float_at out (Low_Last 1) i = Some (Fin (Low r)) /\
    int_at out (Days_Since_High_Last 1) i = Some 0%Z /\
    int_at out (Days_Since_Low_Last 1) i = Some 0%Z.
Proof.
  intros H2 R.
  assert (H1 : (0 < 1)%Z) by lia.
  assert (Hi : i < length rows) by (apply nth_error_Some; congruence).
  assert (T : trailing_start i 1 = i) by (unfold trailing_start; lia).
  destruct (metrics_of_run rows 1 W2 H1 H2) as (dh & dl & Mh & Ml & E).
  destruct (high_last_row rows 1 i H1 Hi) as (hi & Ehi & [(j & r1 & Hj & R1 & <-) _]).
  destruct (low_last_row rows 1 i H1 Hi) as (lo & Elo & [(k & r2 & Hk & R2 & <-) _]).
  destruct (since_high_row rows 1 i H1 Hi) as (ph & Eh & [Bh _]).
  destruct (since_low_row rows 1 i H1 Hi) as (pl & El & [Bl _]).
  rewrite T in *.
  assert (j = i) by lia. assert (k = i) by lia. subst j k.
  assert (r1 = r) by congruence. assert (r2 = r) by congruence. subst r1 r2.
  exists (metrics_frame rows 1 W2 dh dl).
  rewrite E, at_High_Last, at_Low_Last,
    at_Days_Since_High_Last, at_Days_Since_Low_Last.
  rewrite (nth_error_of_int _ _ _ _ Mh Eh), (nth_error_of_int _ _ _ _ Ml El).
  repeat split; auto; do 2 f_equal; lia.
Qed.

Lemma lookback_of_one_row_witness :
  exists out,
    fst (metrics_of rows_553 1 2) = Ok out /\
    float_at out (High_Last 1) 1 = Some (Fin 5) /\
    float_at out (Low_Last 1) 1 = Some (Fin 2) /\
    int_at out (Days_Since_High_Last 1) 1 = Some 0%Z /\
    int_at out (Days_Since_Low_Last 1) 1 = Some 0%Z.
Proof.
  apply (lookback_of_one_row rows_553 2 1 (mkPriceRow 2 4 5 2 3)); reflexivity.
Defined.

Lemma max_over_clip (f : PriceRow -> Q) (rows : list PriceRow) (a b : nat) (m : Q) :
  max_over f rows a b m -> max_over f rows a (Nat.min b (length rows - 1)) m.
Proof.
  intros [(j & r & Hj & R & E) Ub]. split.
  - exists j, r. split; [|auto].
    assert (j < length rows) by (apply nth_error_Some; congruence). lia.
  - intros k s Hk. apply Ub. lia.
Qed.

Lemma min_over_clip (f : PriceRow -> Q) (rows : list PriceRow) (a b : nat) (m : Q) :
  min_over f rows a b m -> min_over f rows a (Nat.min b (length rows - 1)) m.
Proof.
  intros [(j & r & Hj & R & E) Lb]. split.
  - exists j, r. split; [|auto].
    assert (j < length rows) by (apply nth_error_Some; congruence). lia.
  - intros k s Hk. apply Lb. lia.
Qed.

(** X12. From row [W2 - 1] on, a row that has a following row gets the
    forward extrema of rows [i+1 .. min(i+W2, n-1)]: there the forward
    window is the one the column names promise. *)
Theorem forward_extrema_from_row_W2 (rows : list PriceRow) (W1 W2 : Z) (i : nat) :
  (0 < W1)%Z -> (0 < W2)%Z ->
  (W2 - 1 <= Z.of_nat i)%Z -> i + 1 < length rows ->
  exists out hi lo,
    fst (metrics_of rows W1 W2) = Ok out /\
    float_at out (High_Next W2) i = Some (Fin hi) /\
    float_at out (Low_Next W2) i = Some (Fin lo) /\
    max_over High rows (i + 1)
             (Nat.min (i + Z.to_nat W2) (length rows - 1)) hi /\
    min_over Low rows (i + 1)
             (Nat.min (i + Z.to_nat W2) (length rows - 1)) lo.
Proof.
  intros H1 H2 Hw Hi.
  assert (Hi' : i < length rows) by lia.
  destruct (metrics_of_run rows W1 W2 H1 H2) as (dh & dl & _ & _ & E).
  destruct (high_next_cases rows W2 i H2 Hi') as (x & Ex & Cx).
  destruct (low_next_cases rows W2 i H2 Hi') as (y & Ey & Cy).
  destruct Cx as [[_ L]|[[_ L]|(hi & -> & _ & _ & Mx)]]; try lia.
  destruct Cy as [[_ L]|[[_ L]|(lo & -> & _ & _ & My)]]; try lia.
  exists (metrics_frame rows W1 W2 dh dl), hi, lo.
  rewrite E, at_High_Next, at_Low_Next.
  replace (Nat.max (Z.to_nat W2) (i + 1)) with (i + 1) in * by lia.
  split; [reflexivity|]. split; [exact Ex|]. split; [exact Ey|].
  split; [now apply max_over_clip | now apply min_over_clip].
Qed.

Lemma forward_extrema_from_row_W2_witness :
  exists out hi lo,
    fst (metrics_of rows_peak 7 2) = Ok out /\
    float_at out (High_Next 2) 1 = Some (Fin hi) /\
    float_at out (Low_Next 2) 1 = Some (Fin lo) /\
    max_over High rows_peak (1 + 1)
             (Nat.min (1 + Z.to_nat 2) (length rows_peak - 1)) hi /\
    min_over Low rows_peak (1 + 1)
             (Nat.min (1 + Z.to_nat 2) (length rows_peak - 1)) lo.
Proof.
  apply (forward_extrema_from_row_W2 rows_peak 7 2 1);
    [reflexivity | reflexivity | simpl; lia | simpl; lia].
Defined.

(* ------------------------------------------------------------------ *)
(** ** [calculate_metrics]: the percentage columns *)




Lemma pct_cell_nan (c : Q) (e : float) :
  e = NaN \/ (exists E, e = Fin E) ->
  fmul (fdiv (fsub (Fin c) e) e) (Fin (100 # 1)) = NaN <->
  e = NaN \/ exists E, e = Fin E /\ (E == 0)%Q /\ (c == 0)%Q.
Proof.
  intros [->|[E ->]].
  - simpl. split; auto.
  - simpl. destruct (Qeq_bool E 0) eqn:Z0.
    + apply Qeq_bool_iff in Z0.
      destruct (Qcompare_spec (c - E) 0) as [C|C|C]; simpl.
      * split; [|reflexivity]. intros _. right. exists E.
        repeat split; auto. lra.
      * split; [discriminate|].
        intros [N|(E' & [= <-] & _ & C0)]; [discriminate | lra].
      * split; [discriminate|].
        intros [N|(E' & [= <-] & _ & C0)]; [discriminate | lra].
    + split; [discriminate|].
      intros [N|(E' & [= <-] & E0 & _)]; [discriminate|].
      apply Qeq_bool_iff in E0. congruence.
Qed.

Lemma extremum_cell_kind (rows : list PriceRow) (W1 W2 : Z) (dh dl : list Z)
      (ext pc : string) (i : nat) :
  (0 < W1)%Z -> (0 < W2)%Z -> i < length rows ->
  In (ext, pc) (extremum_fields W1 W2) ->
  exists e, float_at (metrics_frame rows W1 W2 dh dl) ext i = Some e /\
            (e = NaN \/ exists E, e = Fin E).
Proof.
  intros H1 H2 Hi Hin.
  destruct Hin as [P|[P|[P|[P|[]]]]]; injection P as <- <-.
  - rewrite at_High_Last.
    destruct (high_last_row rows W1 i H1 Hi) as (m & -> & _). eauto.
  - rewrite at_Low_Last.
    destruct (low_last_row rows W1 i H1 Hi) as (m & -> & _). eauto.
  - rewrite at_High_Next.
    destruct (high_next_cases rows W2 i H2 Hi)
      as (x & -> & [[-> _]|[[-> _]|(m & -> & _)]]); eauto.
  - rewrite at_Low_Next.
    destruct (low_next_cases rows W2 i H2 Hi)
      as (x & -> & [[-> _]|[[-> _]|(m & -> & _)]]); eauto.
Qed.

(** X14. Where a percentage is undefined: for each of the four extremum
    fields and every row, the percentage cell is NaN exactly when the
    extremum cell is NaN, or the extremum and the row's Close are both 0. *)
Theorem percentage_undefined_iff (rows : list PriceRow) (W1 W2 : Z) :
  (0 < W1)%Z -> (0 < W2)%Z ->
  exists out,
    fst (metrics_of rows W1 W2) = Ok out /\
    forall ext pc i r,
      In (ext, pc) (extremum_fields W1 W2) ->
      nth_error rows i = Some r ->
      exists e,
        float_at out ext i = Some e /\
        (float_at out pc i = Some NaN <->
         e = NaN \/ exists E, e = Fin E /\ (E == 0)%Q /\ (Close r == 0)%Q).
Proof.
  intros H1 H2.
  destruct (metrics_of_run rows W1 W2 H1 H2) as (dh & dl & _ & _ & Eq).
  exists (metrics_frame rows W1 W2 dh dl). rewrite Eq. split; [reflexivity|].
  intros ext pc i r Hin R.
  assert (Hi : i < length rows) by (apply nth_error_Some; congruence).
  destruct (extremum_cell_kind rows W1 W2 dh dl ext pc i H1 H2 Hi Hin)
    as (e & Ee & K).
  exists e. split; [exact Ee|].
  rewrite (pct_of_extremum _ _ _ _ _ _ _ _ _ _ Hin R Ee).
  etransitivity; [|apply (pct_cell_nan (Close r) e K)].
  split; [intros N; now injection N | now intros ->].
Qed.

Lemma percentage_undefined_iff_witness :
  exists out e,
    fst (metrics_of rows_553 3 2) = Ok out /\
    float_at out (High_Next 2) 2 = Some e /\
    e = NaN /\
    float_at out (Diff_From_High_Next 2) 2 = Some NaN.
Proof.
  destruct (percentage_undefined_iff rows_553 3 2 eq_refl eq_refl)
    as (out & E & H).
  destruct (H (High_Next 2) (Diff_From_High_Next 2) 2 (mkPriceRow 3 3 3 1 2)
              (or_intror (or_intror (or_introl eq_refl))) eq_refl)
    as (e & Ee & Iff).
  assert (N : e = NaN).
  { injection E as <-. vm_compute in Ee. now injection Ee as <-. }
  exists out, e. repeat split; auto. apply Iff. now left.
Defined.

(* ------------------------------------------------------------------ *)
(** ** [calculate_metrics]: the columns of the result, and a second call *)

(** X15. The returned frame has fifteen columns: the five of the input, in
    their order, then the ten derived ones in the order of the
    assignments. *)
Theorem output_columns (rows : list PriceRow) (W1 W2 : Z) :
  (0 < W1)%Z -> (0 < W2)%Z ->
  exists out,
    fst (metrics_of rows W1 W2) = Ok out /\
    map fst out = base_names ++ derived_names W1 W2.
Proof.
  intros H1 H2.
  destruct (metrics_of_run rows W1 W2 H1 H2) as (dh & dl & _ & _ & E).
  exists (metrics_frame rows W1 W2 dh dl). rewrite E. split; reflexivity.
Qed.

Lemma output_columns_witness :
  exists out,
    fst (metrics_of rows_553 7 5) = Ok out /\
    map fst out = base_names ++ derived_names 7 5.
Proof.
  apply (output_columns rows_553 7 5); reflexivity.
Defined.

Section Again.

Variables (rows : list PriceRow) (variable1 variable2 : Z).
Hypothesis Hv1 : (0 < variable1)%Z.
Hypothesis Hv2 : (0 < variable2)%Z.

(** A call on a frame that already holds the derived columns replaces them
    by the same values. *)
Lemma calculate_metrics_rerun (h : heap) (data : ref) (dh dl : list Z) :
  map of_int dh = since_high rows variable1 ->
  map of_int dl = since_low rows variable1 ->
  nth_error h data = Some (metrics_frame rows variable1 variable2 dh dl) ->
  calculate_metrics data variable1 variable2 h =
    (Ok (length h), h ++ [metrics_frame rows variable1 variable2 dh dl]).
Proof.
  intros Mh Ml Hd.
  destruct (since_high_integral rows variable1 Hv1) as (dh' & Eh & Mh').
  destruct (since_low_integral rows variable1 Hv1) as (dl' & El & Ml').
  assert (dh' = dh).
  { apply (f_equal (map (fun x => match x with Fin q => Qnum q | _ => 0%Z end)))
      in Mh.
    rewrite <- Mh' in Mh. rewrite !map_map in Mh. simpl in Mh.
    rewrite !map_id in Mh. congruence. }
  assert (dl' = dl).
  { apply (f_equal (map (fun x => match x with Fin q => Qnum q | _ => 0%Z end)))
      in Ml.
    rewrite <- Ml' in Ml. rewrite !map_map in Ml. simpl in Ml.
    rewrite !map_id in Ml. congruence. }
  subst dh' dl'.
  unfold since_high in Eh. unfold since_low in El.
  unfold calculate_metrics.
  rewrite bind_Ok with (a := length h)
                       (h' := h ++ [metrics_frame rows variable1 variable2 dh dl])
    by (unfold DataFrame_copy; now rewrite Hd).
  unfold metrics_frame, from_rows, high_last, low_last, high_next, low_next, pct.
  cbn [app].
  repeat step.
  reflexivity.
Qed.

End Again.

(** X16. A second call, on the frame the first call returned and with the
    same windows, returns a new frame equal to the first result, and leaves
    the first result as it is: the derived columns are replaced by the same
    values, none is added. *)
Theorem second_call_same_frame
        (rows : list PriceRow) (W1 W2 : Z) (h : heap) (data : ref) :
  (0 < W1)%Z -> (0 < W2)%Z ->
  nth_error h data = Some (from_rows rows) ->
  exists r1 h1 out,
    calculate_metrics data W1 W2 h = (Ok r1, h1) /\
    nth_error h1 r1 = Some out /\
    exists r2 h2,
      calculate_metrics r1 W1 W2 h1 = (Ok r2, h2) /\
      r2 <> r1 /\
      nth_error h2 r2 = Some out /\
      nth_error h2 r1 = Some out.
Proof.
  intros H1 H2 Hd.
  destruct (calculate_metrics_run rows W1 W2 H1 H2 h data Hd)
    as (dh & dl & Mh & Ml & E).
  set (out := metrics_frame rows W1 W2 dh dl) in *.
  exists (length h), (h ++ [out]), out.
  split; [exact E|]. split; [apply nth_error_last|].
  exists (length (h ++ [out])), ((h ++ [out]) ++ [out]).
  split; [|split; [|split]].
  - apply (calculate_metrics_rerun rows W1 W2 H1 H2 (h ++ [out]) (length h)
                                   dh dl Mh Ml).
    apply nth_error_last.
  - rewrite length_app. simpl. lia.
  - apply nth_error_last.
  - rewrite nth_error_app1 by (rewrite length_app; simpl; lia).
    apply nth_error_last.
Qed.

Lemma second_call_same_frame_witness :
  nth_error [from_rows rows_553] 0 = Some (from_rows rows_553) /\
  exists r1 h1 out,
    calculate_metrics 0 3 2 [from_rows rows_553] = (Ok r1, h1) /\
    nth_error h1 r1 = Some out /\
    exists r2 h2,
      calculate_metrics r1 3 2 h1 = (Ok r2, h2) /\
      r2 <> r1 /\
      nth_error h2 r2 = Some out /\
      nth_error h2 r1 = Some out.
Proof.
  split; [reflexivity|].
  apply (second_call_same_frame rows_553 3 2 [from_rows rows_553] 0);
    reflexivity.
Defined.

(* ------------------------------------------------------------------ *)
(** ** Column names and windows *)

Lemma length_append (a b : string) :
  String.length (String.append a b) = String.length a + String.length b.
Proof. induction a as [|c a IH]; simpl; [reflexivity | now rewrite IH]. Qed.

Lemma append_inj_l (pre a b : string) :
  String.append pre a = String.append pre b -> a = b.
Proof.
  induction pre as [|c pre IH]; simpl; intros E; [exact E|].
  injection E as E. auto.
Qed.

Lemma append_inj_r (a b suf : string) :
  String.append a suf = String.append b suf -> a = b.
Proof.
  revert b. induction a as [|c a IH]; intros [|d b] E; simpl in E.
  - reflexivity.
  - apply (f_equal String.length) in E. simpl in E.
    rewrite length_append in E. lia.
  - apply (f_equal String.length) in E. simpl in E.
    rewrite length_append in E. lia.
  - injection E as -> E. f_equal. auto.
Qed.

(** [str] of two different integers differs. *)
Lemma str_inj (a b : Z) : str a = str b -> a = b.
Proof.
  unfold str. intros E.
  assert (N : forall z, Z.to_int z <> Decimal.Pos Decimal.Nil
                        /\ Z.to_int z <> Decimal.Neg Decimal.Nil).
  { intros [|p|p]; simpl; split; try discriminate;
      intros [= C]; now apply DecimalPos.Unsigned.to_uint_nonnil in C. }
  apply DecimalZ.to_int_inj.
  pose proof (NilZero.isi (Z.to_int a) (proj1 (N a)) (proj2 (N a))) as Ia.
  pose proof (NilZero.isi (Z.to_int b) (proj1 (N b)) (proj2 (N b))) as Ib.
  rewrite E in Ia. congruence.
Qed.

Lemma fname_inj (pre : string) (a b : Z) : fname pre a = fname pre b -> a = b.
Proof.
  unfold fname. intros E.
  apply append_inj_l, append_inj_r in E. now apply str_inj.
Qed.

Ltac names_differ H :=
  first
    [ apply fname_inj in H; congruence
    | unfold High_Last, Low_Last, Days_Since_High_Last, Days_Since_Low_Last,
        High_Next, Low_Next, Diff_From_High_Last, Diff_From_Low_Last,
        Diff_From_High_Next, Diff_From_Low_Next, fname in H;
      simpl in H; discriminate H ].

(** The derived columns of two pairs of windows that differ in both
    components have no name in common. *)
Lemma derived_names_disjoint (W1 W2 W1' W2' : Z) (k : string) :
  W1 <> W1' -> W2 <> W2' ->
  In k (derived_names W1 W2) -> ~ In k (derived_names W1' W2').
Proof.
  intros N1 N2 H H'. unfold derived_names in *. simpl in H, H'.
  repeat (destruct H as [<-|H]; [|]);
    try contradiction;
    repeat (destruct H' as [H'|H']; [names_differ H'|]); contradiction.
Qed.

Lemma df_get_None (k : string) (df : DataFrame) :
  ~ In k (map fst df) -> df_get k df = None.
Proof.
  induction df as [|[k' c] df IH]; simpl; intros N; [reflexivity|].
  destruct (String.eqb_spec k' k) as [->|_]; [tauto | apply IH; tauto].
Qed.

Lemma suffix_differs (a b : Z) :
  a <> b ->
  String.eqb (String.append (str a) "_Days") (String.append (str b) "_Days")
  = false.
Proof.
  intros N. apply String.eqb_neq. intros E.
  apply append_inj_r, str_inj in E. contradiction.
Qed.

Ltac names_apart :=
  repeat (progress
            (names;
             repeat match goal with
                    | H : String.eqb _ _ = false |- _ => rewrite !H
                    end)).

Ltac step_apart :=
  etransitivity;
  [ apply bind_Ok;
    first
      [ apply getseries_last; names_apart; reflexivity
      | apply setitem_last
      | apply lift_Ok; apply rolling_min_periods_1; assumption
      | apply lift_Ok; eassumption ]
  | cbv beta; names_apart ].

Section OtherWindows.

Variables (rows : list PriceRow) (W1 W2 W1' W2' : Z).
Hypothesis H1 : (0 < W1')%Z.
Hypothesis H2 : (0 < W2')%Z.
Hypothesis N1 : W1 <> W1'.
Hypothesis N2 : W2 <> W2'.

(** A call with other windows on a frame that holds the derived columns of
    [W1], [W2] appends its own ten columns. *)
Lemma calculate_metrics_other_windows (h : heap) (data : ref) (dh dl : list Z) :
  nth_error h data = Some (metrics_frame rows W1 W2 dh dl) ->
  exists dh' dl',
    map of_int dh' = since_high rows W1' /\
    map of_int dl' = since_low rows W1' /\
    calculate_metrics data W1' W2' h =
      (Ok (length h),
       h ++ [metrics_frame rows W1 W2 dh dl
               ++ skipn 5 (metrics_frame rows W1' W2' dh' dl')]).
Proof.
  intros Hd.
  destruct (since_high_integral rows W1' H1) as (dh' & Eh & Mh).
  destruct (since_low_integral rows W1' H1) as (dl' & El & Ml).
  exists dh', dl'. split; [exact Mh|]. split; [exact Ml|].
  unfold since_high in Eh. unfold since_low in El.
  pose proof (suffix_differs W1 W1' N1) as A1.
  pose proof (suffix_differs W2 W2' N2) as A2.
  unfold calculate_metrics.
  rewrite bind_Ok with (a := length h)
                       (h' := h ++ [metrics_frame rows W1 W2 dh dl])
    by (unfold DataFrame_copy; now rewrite Hd).
  unfold metrics_frame, from_rows, high_last, low_last, high_next, low_next, pct.
  cbn [app skipn].
  repeat step_apart.
  reflexivity.
Qed.

End OtherWindows.

(** X17. Metrics for two pairs of windows accumulate: a second call with
    windows that both differ from the first ones, on the frame the first
    call returned, returns a frame whose first fifteen columns are the first
    result and whose last ten are the derived columns that a single call
    with the second windows computes. *)
Theorem other_windows_accumulate
        (rows : list PriceRow) (W1 W2 W1' W2' : Z) (h : heap) (data : ref) :
  (0 < W1)%Z -> (0 < W2)%Z -> (0 < W1')%Z -> (0 < W2')%Z ->
  W1 <> W1' -> W2 <> W2' ->
  nth_error h data = Some (from_rows rows) ->
  exists r1 h1 out1 r2 h2 out2 out',
    calculate_metrics data W1 W2 h = (Ok r1, h1) /\
    nth_error h1 r1 = Some out1 /\
    calculate_metrics r1 W1' W2' h1 = (Ok r2, h2) /\
    nth_error h2 r2 = Some out2 /\
    fst (metrics_of rows W1' W2') = Ok out' /\
    out2 = out1 ++ skipn 5 out' /\
    map fst out2 = base_names ++ derived_names W1 W2 ++ derived_names W1' W2'.
Proof.
  intros H1 H2 H1' H2' N1 N2 Hd.
  destruct (calculate_metrics_run rows W1 W2 H1 H2 h data Hd)
    as (dh & dl & _ & _ & E).
  set (out1 := metrics_frame rows W1 W2 dh dl) in *.
  destruct (calculate_metrics_other_windows rows W1 W2 W1' W2' H1' H2' N1 N2
              (h ++ [out1]) (length h) dh dl (nth_error_last h out1))
    as (dh' & dl' & Mh' & Ml' & E').
  destruct (metrics_of_run rows W1' W2' H1' H2') as (dh2 & dl2 & Mh2 & Ml2 & E2).
  assert (dh2 = dh').
  { apply (f_equal (map (fun x => match x with Fin q => Qnum q | _ => 0%Z end)))
      in Mh2.
    rewrite <- Mh' in Mh2. rewrite !map_map in Mh2. simpl in Mh2.
    rewrite !map_id in Mh2. congruence. }
  assert (dl2 = dl').
  { apply (f_equal (map (fun x => match x with Fin q => Qnum q | _ => 0%Z end)))
      in Ml2.
    rewrite <- Ml' in Ml2. rewrite !map_map in Ml2. simpl in Ml2.
    rewrite !map_id in Ml2. congruence. }
  subst dh2 dl2.
  exists (length h), (h ++ [out1]), out1,
    (length (h ++ [out1])),
    ((h ++ [out1]) ++ [out1 ++ skipn 5 (metrics_frame rows W1' W2' dh' dl')]),
    (out1 ++ skipn 5 (metrics_frame rows W1' W2' dh' dl')),
    (metrics_frame rows W1' W2' dh' dl').
  split; [exact E|]. split; [apply nth_error_last|].
  split; [exact E'|]. split; [apply nth_error_last|].
  split; [now rewrite E2|]. split; reflexivity.
Qed.

Lemma other_windows_accumulate_witness :
  nth_error [from_rows rows_553] 0 = Some (from_rows rows_553) /\
  exists r1 h1 out1 r2 h2 out2 out',
    calculate_metrics 0 7 5 [from_rows rows_553] = (Ok r1, h1) /\
    nth_error h1 r1 = Some out1 /\
    calculate_metrics r1 3 2 h1 = (Ok r2, h2) /\
    nth_error h2 r2 = Some out2 /\
    fst (metrics_of rows_553 3 2) = Ok out' /\
    out2 = out1 ++ skipn 5 out' /\
    map fst out2 = base_names ++ derived_names 7 5 ++ derived_names 3 2.
Proof.
  split; [reflexivity|].
  apply (other_windows_accumulate rows_553 7 5 3 2 [from_rows rows_553] 0);
    try reflexivity; discriminate.
Defined.

(* ------------------------------------------------------------------ *)
(** ** [train_model]: the columns it reads *)

Lemma getitems_last (h : heap) (df : DataFrame) (names : list string) :
  getitems (length h) names (h ++ [df]) = (select names df, h ++ [df]).
Proof. unfold getitems. now rewrite nth_error_last. Qed.

Lemma last_forward_cells (rows : list PriceRow) (W2 : Z) :
  (0 < W2)%Z -> rows <> [] ->
  nth_error (pct rows (high_next rows W2)) (length rows - 1) = Some NaN /\
  nth_error (pct rows (low_next rows W2)) (length rows - 1) = Some NaN.
Proof.
  intros H2 NE.
  assert (Hi : length rows - 1 < length rows)
    by (destruct rows; [congruence | simpl; lia]).
  destruct (nth_error rows (length rows - 1)) as [r|] eqn:R;
    [|apply nth_error_None in R; lia].
  destruct (high_next_cases rows W2 _ H2 Hi)
    as (x & Ex & [[-> _]|[[-> _]|(m & _ & _ & C & _)]]); try lia;
    destruct (low_next_cases rows W2 _ H2 Hi)
      as (y & Ey & [[-> _]|[[-> _]|(m' & _ & _ & C' & _)]]); try lia;
    rewrite (pct_row rows _ _ r _ R Ex), (pct_row rows _ _ r _ R Ey);
    split; reflexivity.
Qed.

(** X18. After [calculate_metrics], [train_model] called with the same
    windows finds all the columns it reads: [X] is the frame of the four
    feature columns, each as long as the input, and the two targets are
    float columns. When the input has a row, the last cell of both targets
    is NaN. *)
Theorem train_model_finds_its_columns
        (rows : list PriceRow) (W1 W2 : Z) (h : heap) (data : ref) :
  (0 < W1)%Z -> (0 < W2)%Z ->
  nth_error h data = Some (from_rows rows) ->
  exists r h1 X y_high y_low,
    calculate_metrics data W1 W2 h = (Ok r, h1) /\
    train_model_columns r W1 W2 h1
      = (Ok (X, FloatCol y_high, FloatCol y_low), h1) /\
    map fst X = features W1 /\
    Forall (fun kc => col_len (snd kc) = length rows) X /\
    length y_high = length rows /\ length y_low = length rows /\
    (rows <> [] ->
     nth_error y_high (length rows - 1) = Some NaN /\
     nth_error y_low (length rows - 1) = Some NaN).
Proof.
  intros H1 H2 Hd.
  destruct (calculate_metrics_run rows W1 W2 H1 H2 h data Hd)
    as (dh & dl & Mh & Ml & E).
  pose proof (metrics_frame_columns rows W1 W2 dh dl Mh Ml) as Len.
  exists (length h), (h ++ [metrics_frame rows W1 W2 dh dl]).
  exists [ (Days_Since_High_Last W1, IntCol dh);
           (Diff_From_High_Last W1, FloatCol (pct rows (high_last rows W1)));
           (Days_Since_Low_Last W1, IntCol dl);
           (Diff_From_Low_Last W1, FloatCol (pct rows (low_last rows W1))) ],
    (pct rows (high_next rows W2)), (pct rows (low_next rows W2)).
  split; [exact E|]. split; [|split; [reflexivity|]].
  - unfold train_model_columns.
    rewrite bind_Ok with
      (a := [ (Days_Since_High_Last W1, IntCol dh);
              (Diff_From_High_Last W1, FloatCol (pct rows (high_last rows W1)));
              (Days_Since_Low_Last W1, IntCol dl);
              (Diff_From_Low_Last W1, FloatCol (pct rows (low_last rows W1))) ])
      (h' := h ++ [metrics_frame rows W1 W2 dh dl]).
    2:{ rewrite getitems_last. unfold features, metrics_frame, from_rows.
        cbn [app select]. repeat (progress names). reflexivity. }
    rewrite bind_Ok with (a := FloatCol (pct rows (high_next rows W2)))
                         (h' := h ++ [metrics_frame rows W1 W2 dh dl]).
    2:{ rewrite getitem_last. unfold metrics_frame, from_rows.
        cbn [app]. repeat (progress names). reflexivity. }
    rewrite bind_Ok with (a := FloatCol (pct rows (low_next rows W2)))
                         (h' := h ++ [metrics_frame rows W1 W2 dh dl]).
    2:{ rewrite getitem_last. unfold metrics_frame, from_rows.
        cbn [app]. repeat (progress names). reflexivity. }
    reflexivity.
  - unfold metrics_frame, from_rows in Len. cbn [app] in Len.
    repeat match goal with
           | H : Forall _ (_ :: _) |- _ => inversion H; clear H; subst
           end.
    cbn [snd col_len] in *.
    split; [repeat constructor; assumption|].
    split; [assumption|]. split; [assumption|].
    now apply last_forward_cells.
Qed.

Lemma train_model_finds_its_columns_witness :
  nth_error [from_rows rows_553] 0 = Some (from_rows rows_553) /\
  exists r h1 X y_high y_low,
    calculate_metrics 0 7 5 [from_rows rows_553] = (Ok r, h1) /\
    train_model_columns r 7 5 h1
      = (Ok (X, FloatCol y_high, FloatCol y_low), h1) /\
    map fst X = features 7 /\
    Forall (fun kc => col_len (snd kc) = length rows_553) X /\
    length y_high = length rows_553 /\ length y_low = length rows_553 /\
    (rows_553 <> [] ->
     nth_error y_high (length rows_553 - 1) = Some NaN /\
     nth_error y_low (length rows_553 - 1) = Some NaN).
Proof.
  split; [reflexivity|].
  apply (train_model_finds_its_columns rows_553 7 5 [from_rows rows_553] 0);
    reflexivity.
Defined.

(** X19. [train_model] reads columns that only [calculate_metrics] with the
    same look-back creates: on the frame of price rows itself, and on the
    result of [calculate_metrics] for another [variable1], it raises a
    KeyError. *)
Theorem train_model_needs_same_lookback
        (rows : list PriceRow) (W1 W2 W1' W2' : Z) (h : heap) (data : ref) :
  (0 < W1)%Z -> (0 < W2)%Z -> W1 <> W1' ->
  nth_error h data = Some (from_rows rows) ->
  (exists k, fst (train_model_columns data W1' W2' h) = Raise (KeyError k)) /\
  exists r h1,
    calculate_metrics data W1 W2 h = (Ok r, h1) /\
    exists k, fst (train_model_columns r W1' W2' h1) = Raise (KeyError k).
Proof.
  intros H1 H2 N1 Hd.
  pose proof (suffix_differs W1 W1' N1) as A1.
  split.
  - exists (Days_Since_High_Last W1').
    unfold train_model_columns.
    rewrite bind_Raise with (e := KeyError (Days_Since_High_Last W1')) (h' := h);
      [reflexivity|].
    unfold getitems. rewrite Hd. unfold features, from_rows.
    cbn [select]. repeat (progress names). reflexivity.
  - destruct (calculate_metrics_run rows W1 W2 H1 H2 h data Hd)
      as (dh & dl & _ & _ & E).
    exists (length h), (h ++ [metrics_frame rows W1 W2 dh dl]).
    split; [exact E|].
    exists (Days_Since_High_Last W1').
    unfold train_model_columns.
    rewrite bind_Raise with (e := KeyError (Days_Since_High_Last W1'))
                            (h' := h ++ [metrics_frame rows W1 W2 dh dl]);
      [reflexivity|].
    rewrite getitems_last. unfold features, metrics_frame, from_rows.
    cbn [app select]. names_apart. reflexivity.
Qed.

Lemma train_model_needs_same_lookback_witness :
  nth_error [from_rows rows_553] 0 = Some (from_rows rows_553) /\
  (exists k,
      fst (train_model_columns 0 3 5 [from_rows rows_553]) = Raise (KeyError k)) /\
  exists r h1,
    calculate_metrics 0 7 5 [from_rows rows_553] = (Ok r, h1) /\
    exists k, fst (train_model_columns r 3 5 h1) = Raise (KeyError k).
Proof.
  split; [reflexivity|].
  apply (train_model_needs_same_lookback rows_553 7 5 3 5 [from_rows rows_553] 0);
    try reflexivity; discriminate.
Defined.

(* ------------------------------------------------------------------ *)
(** ** The pipeline of [__main__] *)

(** X20. Fetch, then metrics: whatever the clock, the parser and the
    endpoint, a fetched frame that is not [empty] has between 1 and 14 rows,
    and [calculate_metrics] on it, with any positive windows, returns a
    frame with the same number of rows; the fetched frame is left as it
    was. *)
Theorem fetch_then_metrics
        (strptime_timestamp : string -> option Z) (now_timestamp : Z)
        (market_chart_range : string -> string -> Z -> Z -> option (list (Z * Q)))
        (crypto_pair start_date : string)
        (W1 W2 : Z) (h : heap) (data : ref) :
  let df := fetch_crypto_data strptime_timestamp now_timestamp
                              market_chart_range crypto_pair start_date in
  empty df = false ->
  (0 < W1)%Z -> (0 < W2)%Z ->
  nth_error h data = Some df ->
  1 <= nrows df <= 14 /\
  exists r h1 out,
    calculate_metrics data W1 W2 h = (Ok r, h1) /\
    nth_error h1 r = Some out /\
    nth_error h1 data = Some df /\
    nrows out = nrows df.
Proof.
  intros df Hne H1 H2 Hd.
  destruct (fetch_rows strptime_timestamp now_timestamp market_chart_range
                       crypto_pair start_date)
    as [E|(id & vs & ts & prices & _ & E)];
    fold df in E; rewrite E in *; [discriminate Hne|].
  assert (Hn : nrows (from_rows (price_rows prices)) <> 0).
  { unfold empty in Hne. simpl in Hne.
    apply Nat.eqb_neq in Hne. exact Hne. }
  rewrite nrows_from_rows in *.
  split; [rewrite length_price_rows in *; lia|].
  destruct (calculate_metrics_run (price_rows prices) W1 W2 H1 H2 h data Hd)
    as (dh & dl & _ & _ & Er).
  exists (length h), (h ++ [metrics_frame (price_rows prices) W1 W2 dh dl]),
    (metrics_frame (price_rows prices) W1 W2 dh dl).
  split; [exact Er|]. split; [apply nth_error_last|].
  split.
  - rewrite nth_error_app1; [exact Hd|]. apply nth_error_Some. congruence.
  - apply length_map.
Qed.

Lemma fetch_then_metrics_witness :
  empty fetch_1921 = false /\
  nth_error [fetch_1921] 0 = Some fetch_1921 /\
  1 <= nrows fetch_1921 <= 14 /\
  exists r h1 out,
    calculate_metrics 0 7 5 [fetch_1921] = (Ok r, h1) /\
    nth_error h1 r = Some out /\
    nth_error h1 0 = Some fetch_1921 /\
    nrows out = nrows fetch_1921.
Proof.
  split; [reflexivity|]. split; [reflexivity|].
  apply (fetch_then_metrics epoch 1209600%Z endpoint_1921
                            "Bitcoin/USD" "2023-01-01" 7 5 [fetch_1921] 0);
    reflexivity.
Defined.
